(** * Budget aggregator: category totals and the budget server actions

    A shallow embedding of [src/app/actions/budgets.ts] and of the four
    client-side copies of the category total
    ([src/components/budgets/budget-menu.tsx], which also holds the budget
    form, [src/components/budgets/budget-dashboard.tsx] and
    [src/components/budgets/budget-detail.tsx]).

    - JavaScript numbers are [number]: either [NaN] or a finite amount,
      kept exact as an integer count of minor currency units.  Rounding of
      IEEE doubles is outside this development.
    - JavaScript objects that the code spreads, destructures and extends
      with new keys are finite maps from property names to values.
    - The server actions talk to two collaborators, the session and the
      datastore.  An action is a tree of datastore requests: every
      [await supabase...] is a node whose children are indexed by the
      datastore's answer. *)

From stdpp Require Import base gmap strings list fin_maps pretty.
From Stdlib Require Import ZArith Lia.

Local Open Scope string_scope.
Local Open Scope Z_scope.

(* ===================================================================== *)
(** ** JavaScript numbers and the category tree *)
(* ===================================================================== *)

Inductive number : Type :=
| NaN
| Fin (z : Z).

#[global] Instance number_eq_dec : EqDecision number.
Proof. solve_decision. Defined.

(** [a + b] on numbers. *)
Definition add (a b : number) : number :=
  match a, b with
  | Fin x, Fin y => Fin (x + y)
  | _, _ => NaN
  end.

(** What a property declared [amount: number] holds at run time: the
    property can be absent, JSON can carry [null], or it is a number. *)
Inductive JsAmount : Type :=
| AUndefined
| ANull
| ANumber (n : number).

(** Truthiness, as [||] and [!] test it: [undefined], [null], [NaN] and [0]
    are falsy. *)
Definition amount_truthy (a : JsAmount) : bool :=
  match a with
  | ANumber (Fin z) => negb (z =? 0)
  | _ => false
  end.

(** [ToNumber]: what [total + x] makes of [x] before adding. *)
Definition to_number (a : JsAmount) : number :=
  match a with
  | AUndefined => NaN
  | ANull => Fin 0
  | ANumber n => n
  end.

(** [a || 0] *)
Definition or_zero (a : JsAmount) : number :=
  if amount_truthy a then to_number a else Fin 0.

(** [interface BudgetCategory] *)
#[local] Set Warnings "-register-all".
Inductive BudgetCategory : Type :=
| Category (id name : string) (amount : JsAmount) (color : option string)
           (subcategories : list BudgetCategory).

Definition cat_amount (c : BudgetCategory) : JsAmount :=
  match c with Category _ _ a _ _ => a end.

Definition subcategories (c : BudgetCategory) : list BudgetCategory :=
  match c with Category _ _ _ _ subs => subs end.

(** [xs && xs.length > 0] *)
Definition non_empty {A} (xs : list A) : bool :=
  match xs with [] => false | _ :: _ => true end.

(** A leaf written the short way. *)
Definition leaf (name : string) (a : JsAmount) : BudgetCategory :=
  Category name name a None [].

Definition parent (name : string) (a : JsAmount) (subs : list BudgetCategory)
  : BudgetCategory :=
  Category name name a None subs.

(** Induction over the tree that also descends into the subcategories. *)
Section CategoryInd.
Variable P : BudgetCategory -> Prop.
Hypothesis step : forall id name a color subs,
    Forall P subs -> P (Category id name a color subs).

Fixpoint BudgetCategory_forall_ind (c : BudgetCategory) : P c :=
  match c with
  | Category id name a color subs =>
      step id name a color subs
        ((fix go (l : list BudgetCategory) : Forall P l :=
            match l with
            | [] => List.Forall_nil P
            | x :: r =>
                List.Forall_cons P x r (BudgetCategory_forall_ind x) (go r)
            end) subs)
  end.
End CategoryInd.

(* ===================================================================== *)
(** ** The category totals *)
(* ===================================================================== *)

(** *** Server: [calculateTotalAllocated] of [app/actions/budgets.ts]

    The source recurses on the array of categories.  The recursion is
    anchored here on one category ([allocated_by] is what one turn of the
    [for .. of] loop adds to [total]); [calculateTotalAllocated_unfold]
    below gives back the equation of the source. *)
Fixpoint allocated_by (category : BudgetCategory) : number :=
  match category with
  | Category _ _ amount _ subs =>
      if non_empty subs
      then fold_left (fun total c => add total (allocated_by c)) subs (Fin 0)
      else or_zero amount
  end.

Definition calculateTotalAllocated (categories : list BudgetCategory) : number :=
  fold_left (fun total category => add total (allocated_by category))
            categories (Fin 0).

(** *** Budget form ([BudgetForm], in the file of the budget menu) *)
Module BudgetForm.

(** The module-level [calculateTotalAllocated], a [reduce] from [0]. *)
Fixpoint reduce_step (category : BudgetCategory) : number :=
  match category with
  | Category _ _ amount _ subs =>
      if non_empty subs
      then fold_left (fun total c => add total (reduce_step c)) subs (Fin 0)
      else or_zero amount
  end.

Definition calculateTotalAllocated (categories : list BudgetCategory)
  : number :=
  fold_left (fun total category => add total (reduce_step category))
            categories (Fin 0).

(** [calculateTotal] of the [totalAllocated] memo, the value behind
    [remainingAmount].  [subTotal] is
    [cat.subcategories.length > 0 ? calculateTotal(cat.subcategories) : cat.amount]
    and is added as it is, with no [|| 0]. *)
Fixpoint subTotal (cat : BudgetCategory) : number :=
  match cat with
  | Category _ _ amount _ subs =>
      if non_empty subs
      then fold_left (fun total c => add total (subTotal c)) subs (Fin 0)
      else to_number amount
  end.

Definition calculateTotal (categories : list BudgetCategory) : number :=
  fold_left (fun total cat => add total (subTotal cat)) categories (Fin 0).

End BudgetForm.

(** *** Dashboard ([BudgetDetails]) *)
Module BudgetDetails.

(** One turn of the loop of [calculateTotal]: it first adds the
    category's own amount, then the total of its subcategories when there
    are any. *)
Fixpoint turn (total : number) (category : BudgetCategory) : number :=
  match category with
  | Category _ _ amount _ subs =>
      let total := add total (or_zero amount) in
      if non_empty subs
      then add total (fold_left turn subs (Fin 0))
      else total
  end.

Definition calculateTotal (categories : list BudgetCategory) : number :=
  fold_left turn categories (Fin 0).

End BudgetDetails.

(** *** Budget detail page ([BudgetDetail]): [sumJsonCategories], a
    [reduce] that adds [Number(cat.amount) || 0] and the sum of the
    subcategories of every category. *)
Module BudgetDetail.

Fixpoint reduce_step (sum : number) (cat : BudgetCategory) : number :=
  match cat with
  | Category _ _ amount _ subs =>
      add (add sum (or_zero amount)) (fold_left reduce_step subs (Fin 0))
  end.

Definition sumJsonCategories (categories : list BudgetCategory) : number :=
  fold_left reduce_step categories (Fin 0).

End BudgetDetail.

(** *** The specification's words: effective allocation and its sum. *)
Fixpoint sum_numbers (ns : list number) : number :=
  match ns with
  | [] => Fin 0
  | n :: rest => add n (sum_numbers rest)
  end.

(** "a missing or non-numeric amount" counts as [0]. *)
Definition amount_or_0 (a : JsAmount) : number :=
  match a with
  | ANumber (Fin z) => Fin z
  | _ => Fin 0
  end.

Fixpoint effective_allocation (c : BudgetCategory) : number :=
  match c with
  | Category _ _ amount _ [] => amount_or_0 amount
  | Category _ _ _ _ (s :: rest) =>
      sum_numbers (map effective_allocation (s :: rest))
  end.

Definition spec_total (categories : list BudgetCategory) : number :=
  sum_numbers (map effective_allocation categories).

(* ===================================================================== *)
(** ** JavaScript objects *)
(* ===================================================================== *)

(** The values a budget property can hold.  An absent property (reading it
    gives [undefined]) is an absent key of the map. *)
Inductive value : Type :=
| VNull
| VStr (s : string)
| VNum (n : number)
| VCategories (cs : list BudgetCategory).

Abbreviation obj := (gmap string value).

(** [x === ''] *)
Definition is_empty_string (x : option value) : bool :=
  match x with
  | Some (VStr "") => true
  | _ => false
  end.

(** [x == null]: [null] or [undefined]. *)
Definition is_nullish (x : option value) : bool :=
  match x with
  | None | Some VNull => true
  | Some _ => false
  end.

(** Truthiness of a property, as [!x] and [x && ..] test it. *)
Definition truthy (x : option value) : bool :=
  match x with
  | None | Some VNull => false
  | Some (VStr "") => false
  | Some (VStr _) => true
  | Some (VNum NaN) => false
  | Some (VNum (Fin z)) => negb (z =? 0)
  | Some (VCategories _) => true
  end.

(** [o.k = x], where [x] was read from a property. *)
Definition assign (k : string) (x : option value) (o : obj) : obj :=
  match x with
  | Some v => <[k := v]> o
  | None => delete k o
  end.

(** [budget.categories || []], for a column that holds an array or
    nothing. *)
Definition categories_or_empty (x : option value) : list BudgetCategory :=
  match x with
  | Some (VCategories cs) => cs
  | _ => []
  end.

(* ===================================================================== *)
(** ** Server actions as trees of datastore requests *)
(* ===================================================================== *)

(** The error object of a datastore answer. *)
Record PostgrestError : Type := mkError { code : string; message : string }.

(** [{ data, error }] *)
Record Result (X : Type) : Type :=
  mkResult { data : option X; error : option PostgrestError }.
Arguments mkResult {X} _ _.
Arguments data {X} _.
Arguments error {X} _.

(** The query chains on [supabase.from("budgets")] that the actions await. *)
Inductive Request : Type -> Type :=
| SelectMany (columns : list string) (user_id : string) : Request (list obj)
    (* .select(columns).eq("user_id", ..).order("start_date", desc) *)
| SelectSingle (id user_id : string) : Request obj
    (* .select('*').eq('id', ..).eq('user_id', ..).single() *)
| InsertSingle (payload : obj) : Request obj
    (* .insert(payload).select().single() *)
| UpdateSingle (payload : obj) (id user_id : string) : Request obj
    (* .update(payload).eq("id", ..).eq("user_id", ..).select().single() *)
| Delete (id user_id : string) : Request unit.
    (* .delete().eq("id", ..).eq("user_id", ..) *)

(** An action either returns, throws [new Error(message)], or awaits the
    datastore and goes on with its answer.  Logging to the console and
    [revalidatePath] are left out: they touch neither the datastore nor
    the result. *)
Inductive Action (A : Type) : Type :=
| Return (a : A)
| Throw (msg : string)
| Await {X : Type} (q : Request X) (k : Result X -> Action A).
Arguments Return {A} _.
Arguments Throw {A} _.
Arguments Await {A X} _ _.

Fixpoint bind {A B} (p : Action A) (f : A -> Action B) : Action B :=
  match p with
  | Return a => f a
  | Throw msg => Throw msg
  | Await q k => Await q (fun r => bind (k r) f)
  end.

Definition await {X} (q : Request X) : Action (Result X) := Await q Return.

(** The actions are written with stdpp's monad notation [x ← p; q]. *)
#[global] Instance Action_ret : MRet Action := @Return.
#[global] Instance Action_bind : MBind Action := fun A B f p => bind p f.

(** What the two collaborators of the session hand to an action:
    whether [createServerSupabaseClient()] gave a client, and the id of
    the user [getAuthenticatedUser()] resolved, if any. *)
Record Session : Type := mkSession { supabase : bool; user : option string }.

Definition AuthError : string := "Authentication required".
Definition ClientError : string := "Failed to create Supabase client".
Definition ValidationError : string :=
  "Start date is required and cannot be empty.".
Definition UpdateValidationError : string :=
  "Start date cannot be updated to be empty.".

(** [error.code === '42703' || error.code === 'PGRST204'] *)
Definition is_missing_column (e : PostgrestError) : bool :=
  String.eqb (code e) "42703" || String.eqb (code e) "PGRST204".

Definition list_columns : list string :=
  ["id"; "name"; "amount"; "start_date"; "end_date"; "categories"].
Definition fallback_columns : list string :=
  ["id"; "name"; "amount"; "start_date"; "end_date"].

(** The object [getBudgets] builds for each row. *)
Definition with_total (budget : obj) : obj :=
  let cats := categories_or_empty (budget !! "categories") in
  <["total_allocated" := VNum (calculateTotalAllocated cats)]>
    (<["categories" := VCategories cats]> budget).

(** [getBudgets] *)
Definition getBudgets (s : Session) : Action (list obj) :=
  if negb (supabase s) then Return [] else
  match user s with
  | None => Return []
  | Some user_id =>
      r ← await (SelectMany list_columns user_id);
      '(budgets, error) ←
        match error r with
        | Some e =>
            if String.eqb (code e) "42703" then
              fb ← await (SelectMany fallback_columns user_id);
              match error fb with
              | Some fe => Throw ("Failed to fetch budgets: " ++ message fe)
              | None => Return (data fb, None)
              end
            else Return (data r, Some e)
        | None => Return (data r, None)
        end;
      match error with
      | Some e => Throw ("Failed to fetch budgets: " ++ message e)
      | None => Return (map with_total (default [] budgets))
      end
  end.

(** [getBudgetById] *)
Definition getBudgetById (s : Session) (id : string) : Action (option obj) :=
  if negb (supabase s) then Throw ClientError else
  match user s with
  | None => Throw AuthError
  | Some user_id =>
      r ← await (SelectSingle id user_id);
      match error r with
      | Some e => Throw ("Failed to fetch budget: " ++ message e)
      | None =>
          match data r with
          | None => Return None
          | Some budget =>
              Return (Some (<["total_allocated" :=
                                VNum (calculateTotalAllocated
                                        (categories_or_empty
                                           (budget !! "categories")))]>
                              budget))
          end
      end
  end.

(** The part of [createBudget] between the session checks and the first
    insert: what it makes of [budgetData], or the message it throws. *)
Definition create_payload (user_id : string) (budgetData : obj)
  : string + obj :=
  let dbSafeData := delete "total_allocated" budgetData in
  let insertData := <["user_id" := VStr user_id]> dbSafeData in
  let insertData :=
    if is_empty_string (insertData !! "end_date")
    then <["end_date" := VNull]> insertData else insertData in
  if negb (truthy (insertData !! "start_date")) then inl ValidationError else
  let insertData :=
    if is_nullish (insertData !! "end_date")
    then assign "end_date" (insertData !! "start_date") insertData
    else insertData in
  inr insertData.

(** [createBudget] *)
Definition createBudget (s : Session) (budgetData : obj)
  : Action (option obj) :=
  if negb (supabase s) then Throw ClientError else
  match user s with
  | None => Throw AuthError
  | Some user_id =>
      match create_payload user_id budgetData with
      | inl msg => Throw msg
      | inr insertData =>
          r ← await (InsertSingle insertData);
          '(budget, error) ←
            match error r with
            | Some e =>
                if is_missing_column e then
                  let fallbackData := delete "categories" insertData in
                  fb ← await (InsertSingle fallbackData);
                  match error fb with
                  | Some fe => Throw ("Error creating budget: " ++ message fe)
                  | None => Return (data fb, None)
                  end
                else Return (data r, Some e)
            | None => Return (data r, None)
            end;
          match error with
          | Some e => Throw ("Error creating budget: " ++ message e)
          | None => Return budget
          end
      end
  end.

(** The same part of [updateBudget]. *)
Definition update_payload (budgetData : obj) : string + obj :=
  let updateData := delete "total_allocated" budgetData in
  let updateData :=
    if is_empty_string (updateData !! "end_date")
    then <["end_date" := VNull]> updateData else updateData in
  if is_empty_string (updateData !! "start_date")
  then inl UpdateValidationError else
  let updateData :=
    if is_nullish (updateData !! "end_date")
       && truthy (updateData !! "start_date")
    then assign "end_date" (updateData !! "start_date") updateData
    else updateData in
  inr updateData.

(** [updateBudget] *)
Definition updateBudget (s : Session) (id : string) (budgetData : obj)
  : Action (option obj) :=
  if negb (supabase s) then Throw ClientError else
  match user s with
  | None => Throw AuthError
  | Some user_id =>
      match update_payload budgetData with
      | inl msg => Throw msg
      | inr updateData =>
          r ← await (UpdateSingle updateData id user_id);
          '(budget, error) ←
            match error r with
            | Some e =>
                if is_missing_column e then
                  let fallbackData := delete "categories" updateData in
                  fb ← await (UpdateSingle fallbackData id user_id);
                  match error fb with
                  | Some fe => Throw ("Error updating budget: " ++ message fe)
                  | None => Return (data fb, None)
                  end
                else Return (data r, Some e)
            | None => Return (data r, None)
            end;
          match error with
          | Some e => Throw ("Error updating budget: " ++ message e)
          | None => Return budget
          end
      end
  end.

(** [deleteBudget]; [true] stands for [{ success: true }]. *)
Definition deleteBudget (s : Session) (id : string) : Action bool :=
  if negb (supabase s) then Throw ClientError else
  match user s with
  | None => Throw AuthError
  | Some user_id =>
      r ← await (Delete id user_id);
      match error r with
      | Some e => Throw ("Failed to delete budget: " ++ message e)
      | None => Return true
      end
  end.

(* ===================================================================== *)
(** ** Running an action against a datastore *)
(* ===================================================================== *)

(** A datastore: a state and the answer it gives to each request. *)
Record Datastore : Type := mkDatastore {
  db : Type;
  answer : forall X : Type, db -> Request X -> db * Result X
}.

(** A request as it is logged, with the type of its answer forgotten. *)
Inductive Call : Type :=
| call {X : Type} (q : Request X).

Inductive Outcome (A : Type) : Type :=
| Returned (a : A)
| Thrown (msg : string).
Arguments Returned {A} _.
Arguments Thrown {A} _.

Record Run (S A : Type) : Type :=
  mkRun { final : S; calls : list Call; outcome : Outcome A }.
Arguments mkRun {S A} _ _ _.
Arguments final {S A} _.
Arguments calls {S A} _.
Arguments outcome {S A} _.

Fixpoint run {A} (D : Datastore) (p : Action A) (s : db D) : Run (db D) A :=
  match p with
  | Return a => mkRun s [] (Returned a)
  | Throw msg => mkRun s [] (Thrown msg)
  | Await q k =>
      let '(s', r) := answer D _ s q in
      let t := run D (k r) s' in
      mkRun (final t) (call q :: calls t) (outcome t)
  end.

(** The payload of a call that writes a document. *)
Definition written (c : Call) : option obj :=
  match c with
  | call (InsertSingle payload) => Some payload
  | call (UpdateSingle payload _ _) => Some payload
  | call _ => None
  end.

(* ===================================================================== *)
(** ** A reference datastore *)
(* ===================================================================== *)

(** Modelled from the spec: the datastore, a hosted Postgres table
    [budgets] reached through the Supabase client, is a collaborator
    outside the repository.  The model is the table of the
    specification's external interfaces: documents keyed by [id],
    filtered by equality on the owner, with a [categories] column that
    may be absent.  Where the specification is silent, the answers follow
    the contract of the client calls that the source makes:
    - naming a column the table lacks fails, with code [42703] in a select
      list and [PGRST204] in a document to write;
    - [.single()] answers with the row when exactly one row is selected
      and with error [PGRST116] when none is;
    - [.insert()] gives the row a fresh [id] unless the document brings
      one, and refuses an [id] already in the table;
    - [.update()] overwrites the written properties of the selected row
      and keeps the others;
    - [.delete()] reports no error, whether or not it matched a row.
    No other constraint of the real table (such as [NOT NULL]) is
    modelled. *)
Record Budgets : Type :=
  mkBudgets { rows : gmap string obj; categories_column : bool }.

Definition table_columns (t : Budgets) : list string :=
  ["id"; "user_id"; "name"; "amount"; "start_date"; "end_date"]
    ++ (if categories_column t then ["categories"] else []).

Definition owned_by (user_id : string) (row : obj) : bool :=
  match row !! "user_id" with
  | Some (VStr u) => String.eqb u user_id
  | _ => false
  end.

(** The first of [names] that is not a column of the table. *)
Definition unknown_column (t : Budgets) (names : list string) : option string :=
  head (filter (fun k => k ∉ table_columns t) names).

Definition start_key (row : obj) : string :=
  match row !! "start_date" with
  | Some (VStr s) => s
  | _ => ""
  end.

(** [.order("start_date", { ascending: false })] *)
Fixpoint insert_desc (row : obj) (sorted : list obj) : list obj :=
  match sorted with
  | [] => [row]
  | r :: rest =>
      if String.leb (start_key row) (start_key r)
      then r :: insert_desc row rest
      else row :: r :: rest
  end.

Definition order_desc (l : list obj) : list obj := foldr insert_desc [] l.

Definition project (columns : list string) (row : obj) : obj :=
  filter (fun kv => kv.1 ∈ columns) row.

Definition no_row : PostgrestError :=
  mkError "PGRST116" "JSON object requested, multiple (or no) rows returned".

(** The row selected by [.eq("id", id).eq("user_id", user_id)]. *)
Definition find_row (t : Budgets) (id user_id : string) : option obj :=
  match rows t !! id with
  | Some row => if owned_by user_id row then Some row else None
  | None => None
  end.

Definition reference_answer (X : Type) (t : Budgets) (q : Request X)
  : Budgets * Result X :=
  match q in Request X return Budgets * Result X with
  | SelectMany columns user_id =>
      match unknown_column t columns with
      | Some c =>
          (t, mkResult None
                (Some (mkError "42703"
                         ("column budgets." ++ c ++ " does not exist"))))
      | None =>
          let mine := filter (owned_by user_id) (map snd (map_to_list (rows t))) in
          (t, mkResult (Some (map (project columns) (order_desc mine))) None)
      end
  | SelectSingle id user_id =>
      match find_row t id user_id with
      | Some row => (t, mkResult (Some row) None)
      | None => (t, mkResult None (Some no_row))
      end
  | InsertSingle payload =>
      match unknown_column t (map fst (map_to_list payload)) with
      | Some c =>
          (t, mkResult None
                (Some (mkError "PGRST204"
                         ("Could not find the '" ++ c
                            ++ "' column of 'budgets' in the schema cache"))))
      | None =>
          let id := match payload !! "id" with
                    | Some (VStr i) => i
                    | _ => fresh (dom (rows t))
                    end in
          match rows t !! id with
          | Some _ =>
              (t, mkResult None
                    (Some (mkError "23505"
                             "duplicate key value violates unique constraint")))
          | None =>
              let row := <["id" := VStr id]> payload in
              (mkBudgets (<[id := row]> (rows t)) (categories_column t),
               mkResult (Some row) None)
          end
      end
  | UpdateSingle payload id user_id =>
      match unknown_column t (map fst (map_to_list payload)) with
      | Some c =>
          (t, mkResult None
                (Some (mkError "PGRST204"
                         ("Could not find the '" ++ c
                            ++ "' column of 'budgets' in the schema cache"))))
      | None =>
          match find_row t id user_id with
          | Some row =>
              let row' := payload ∪ row in
              (mkBudgets (<[id := row']> (rows t)) (categories_column t),
               mkResult (Some row') None)
          | None => (t, mkResult None (Some no_row))
          end
      end
  | Delete id user_id =>
      match find_row t id user_id with
      | Some _ =>
          (mkBudgets (delete id (rows t)) (categories_column t),
           mkResult None None)
      | None => (t, mkResult None None)
      end
  end.

Definition reference : Datastore := mkDatastore Budgets reference_answer.

(** The session of a signed-in user, and the session without one. *)
Definition signed_in (user_id : string) : Session :=
  mkSession true (Some user_id).
Definition anonymous : Session := mkSession true None.

(* ===================================================================== *)
(** ** Vocabulary of the specification, and sample data *)
(* ===================================================================== *)

(** Every leaf of the tree carries an amount that [+] reads as [|| 0]
    does: a finite number or [null]. *)
Fixpoint plain_amounts (c : BudgetCategory) : Prop :=
  match c with
  | Category _ _ amount _ subs =>
      if non_empty subs
      then fold_right (fun x rest => plain_amounts x /\ rest) True subs
      else to_number amount = or_zero amount
  end.

(** The dashboard's total is the sum of every amount in the tree, parents
    included. *)
Fixpoint all_amounts (c : BudgetCategory) : number :=
  match c with
  | Category _ _ amount _ subs =>
      add (or_zero amount) (sum_numbers (map all_amounts subs))
  end.

(** [getBudgets], [createBudget] and [updateBudget] each carry a copy of
    the same block: a first request, a retry when the error code is
    recognised, and a final test of [error].  [fallback_block] is that
    block with its five varying parts as arguments. *)
Definition fallback_block {X A} (first retry : Request X)
    (recognised : PostgrestError -> bool) (prefix : string)
    (ret : option X -> A) : Action A :=
  r ← await first;
  '(d, err) ←
    match error r with
    | Some e =>
        if recognised e then
          fb ← await retry;
          match error fb with
          | Some fe => Throw (prefix ++ message fe)
          | None => Return (data fb, None)
          end
        else Return (data r, Some e)
    | None => Return (data r, None)
    end;
  match err with
  | Some e => Throw (prefix ++ message e)
  | None => Return (ret d)
  end.

(** What a run of [p] looks like when [p] asks [first], retries with
    [retry] exactly when the first error is [recognised], and surfaces the
    error it ends with under [prefix]. *)
Definition retries_once {X A} (D : Datastore) (s : db D) (p : Action A)
    (first retry : Request X) (recognised : PostgrestError -> bool)
    (prefix : string) (ret : option X -> A) : Prop :=
  let '(s1, r1) := answer D X s first in
  match error r1 with
  | None => run D p s = mkRun s1 [call first] (Returned (ret (data r1)))
  | Some e =>
      if recognised e then
        let '(s2, r2) := answer D X s1 retry in
        run D p s
        = mkRun s2 [call first; call retry]
            match error r2 with
            | Some fe => Thrown (prefix ++ message fe)
            | None => Returned (ret (data r2))
            end
      else run D p s = mkRun s1 [call first] (Thrown (prefix ++ message e))
  end.

(** [end_date] is omitted, [null] or the empty string. *)
Definition end_date_blank (budgetData : obj) : Prop :=
  budgetData !! "end_date" = None
  \/ budgetData !! "end_date" = Some VNull
  \/ budgetData !! "end_date" = Some (VStr "").

(** [start_date] is missing or the empty string. *)
Definition start_date_blank (budgetData : obj) : Prop :=
  budgetData !! "start_date" = None
  \/ budgetData !! "start_date" = Some (VStr "").

(** A call that writes a document writes none with [total_allocated]. *)
Definition omits_total_allocated (c : Call) : Prop :=
  match written c with
  | Some payload => payload !! "total_allocated" = None
  | None => True
  end.

(** A call that writes a document writes one whose [end_date] and
    [start_date] both hold [start], which is not blank. *)
Definition ends_on_start (start : option value) (c : Call) : Prop :=
  match written c with
  | Some payload =>
      payload !! "end_date" = start
      /\ payload !! "start_date" = start
      /\ truthy start = true
  | None => True
  end.

(** A call that writes a document leaves [end_date] out of it. *)
Definition leaves_end_date (c : Call) : Prop :=
  match written c with
  | Some payload => payload !! "end_date" = None
  | None => True
  end.


(** Sample data: the budget of the specification's walk-through, and a
    table that already holds it with an end date of its own. *)
Definition trip_categories : list BudgetCategory :=
  [ leaf "Flights" (ANumber (Fin 400));
    parent "Hotel" (ANumber (Fin 300))
      [ leaf "Deposit" (ANumber (Fin 150));
        leaf "Balance" (ANumber (Fin 150)) ] ].

Definition trip : obj :=
  {[ "name" := VStr "Trip";
     "amount" := VNum (Fin 1000);
     "start_date" := VStr "2024-01-01";
     "categories" := VCategories trip_categories ]}.

Definition trip_payload : obj :=
  <["user_id" := VStr "alice"]> (<["end_date" := VStr "2024-01-01"]> trip).

Definition stored_trip : obj :=
  <["id" := VStr "b1"]>
    (<["user_id" := VStr "alice"]> (<["end_date" := VStr "2024-01-31"]> trip)).

Definition empty_table : Budgets := mkBudgets ∅ true.
Definition one_budget : Budgets := mkBudgets {[ "b1" := stored_trip ]} true.

(** A parent that carries an amount of its own next to two leaves. *)
Definition parent_with_amount : list BudgetCategory :=
  [ parent "Housing" (ANumber (Fin 9999))
      [ leaf "Rent" (ANumber (Fin 10)); leaf "Power" (ANumber (Fin 20)) ] ].

(* ===================================================================== *)
(** ** The budget form: remaining amount and edits of the tree *)
(* ===================================================================== *)

(** [a - b] and [a < 0] on numbers. *)
Definition sub (a b : number) : number :=
  match a, b with
  | Fin x, Fin y => Fin (x - y)
  | _, _ => NaN
  end.

Definition below_zero (a : number) : bool :=
  match a with
  | Fin z => z <? 0
  | NaN => false
  end.

(** [remainingAmount] of [BudgetForm], and the [disabled] flag of its
    submit button. *)
Definition remainingAmount (amount : number) (categories : list BudgetCategory)
  : number :=
  sub amount (BudgetForm.calculateTotal categories).

Definition submit_disabled (loading : bool) (amount : number)
    (categories : list BudgetCategory) : bool :=
  loading || below_zero (remainingAmount amount categories).

(** [JSON.parse(JSON.stringify(categories))], the copy every edit starts
    from: an absent property stays absent and [NaN] comes back as
    [null]. *)
Definition json_amount (a : JsAmount) : JsAmount :=
  match a with
  | ANumber NaN => ANull
  | _ => a
  end.

Fixpoint json_category (c : BudgetCategory) : BudgetCategory :=
  match c with
  | Category id name amount color subs =>
      Category id name (json_amount amount) color (map json_category subs)
  end.

Definition json_copy (categories : list BudgetCategory) : list BudgetCategory :=
  map json_category categories.

(** The two properties the form sets through [handleCategoryChange]. *)
Inductive Field : Type :=
| FName (value : string)
| FAmount (value : number).

(** [current[index][field] = value] *)
Definition set_field (f : Field) (c : BudgetCategory) : BudgetCategory :=
  match c with
  | Category id name amount color subs =>
      match f with
      | FName value => Category id value amount color subs
      | FAmount value => Category id name (ANumber value) color subs
      end
  end.

(** [current[i].subcategories], changed in place by [k]; [None] is the
    [TypeError] of reading a property of [undefined]. *)
Definition into (i : nat) (k : list BudgetCategory -> option (list BudgetCategory))
    (current : list BudgetCategory) : option (list BudgetCategory) :=
  match current !! i with
  | Some (Category id name amount color subs) =>
      subs' ← k subs; Some (<[i := Category id name amount color subs']> current)
  | None => None
  end.

(** The body of [handleCategoryChange] after the copy: walk all of [path]
    but its last index, then assign at the last index.  With an empty
    path the index is [undefined] and the assignment throws. *)
Fixpoint change_at (path : list nat) (f : Field) (current : list BudgetCategory)
  : option (list BudgetCategory) :=
  match path with
  | [] => None
  | index :: rest =>
      match rest with
      | [] =>
          match current !! index with
          | Some c => Some (<[index := set_field f c]> current)
          | None => None
          end
      | _ :: _ => into index (change_at rest f) current
      end
  end.

Definition handleCategoryChange (path : list nat) (f : Field)
    (categories : list BudgetCategory) : option (list BudgetCategory) :=
  change_at path f (json_copy categories).

(** The body of [addCategory] after the copy: walk all of [path], then
    [push]. *)
Fixpoint push_at (path : list nat) (newCategory : BudgetCategory)
    (current : list BudgetCategory) : option (list BudgetCategory) :=
  match path with
  | [] => Some (current ++ [newCategory])%list
  | i :: rest => into i (push_at rest newCategory) current
  end.

(** [addCategory]; [uuid] is the value of [uuidv4()]. *)
Definition addCategory (uuid : string) (path : list nat)
    (categories : list BudgetCategory) : option (list BudgetCategory) :=
  push_at path (Category uuid "" (ANumber (Fin 0)) None [])
    (json_copy categories).

(** The body of [removeCategory] after the copy: walk all of [path] but
    its last index, then [splice(index, 1)].  An index past the end
    removes nothing; with an empty path the index is [undefined], which
    [splice] reads as [0]. *)
Fixpoint splice_at (path : list nat) (current : list BudgetCategory)
  : option (list BudgetCategory) :=
  match path with
  | [] => Some (drop 1 current)
  | index :: rest =>
      match rest with
      | [] => Some (delete index current)
      | _ :: _ => into index (splice_at rest) current
      end
  end.

Definition removeCategory (path : list nat) (categories : list BudgetCategory)
  : option (list BudgetCategory) :=
  splice_at path (json_copy categories).

(** The category a path of indices leads to. *)
Fixpoint category_at (path : list nat) (categories : list BudgetCategory)
  : option BudgetCategory :=
  match path with
  | [] => None
  | i :: rest =>
      match rest with
      | [] => categories !! i
      | _ :: _ =>
          match categories !! i with
          | Some c => category_at rest (subcategories c)
          | None => None
          end
      end
  end.

(** The amount a total stands for, in units. *)
Definition units_of (n : number) : Z :=
  match n with
  | Fin z => z
  | NaN => 0
  end.

Definition total_units (categories : list BudgetCategory) : Z :=
  units_of (calculateTotalAllocated categories).

(* ===================================================================== *)
(** ** The budget templates *)
(* ===================================================================== *)

(** A template and its categories, as [BudgetTemplatesWrapper] reads
    them: the id and name of the template, the name of each category and
    the amount it may carry. *)
Record TemplateCategory : Type :=
  mkTemplateCategory { tc_name : string; tc_amount : JsAmount }.

Record Template : Type :=
  mkTemplate { t_id : string; t_name : string;
               t_categories : list TemplateCategory }.

(** The [filter] behind [uniqueLifestyleTemplates] and
    [uniqueLifeEventTemplates]; [seen] is the [Set] it fills. *)
Fixpoint unique_from (seen : gset string) (templates : list Template)
  : list Template :=
  match templates with
  | [] => []
  | t :: rest =>
      if decide (t_id t ∈ seen) then unique_from seen rest
      else t :: unique_from ({[ t_id t ]} ∪ seen) rest
  end.

Definition uniqueTemplates (templates : list Template) : list Template :=
  unique_from ∅ templates.

(** [amount ?? 0] *)
Definition or_zero_if_nullish (a : JsAmount) : number :=
  match a with
  | AUndefined | ANull => Fin 0
  | ANumber n => n
  end.

(** [defaultIncome]: the sum of the amounts, or 5000 when the sum is
    falsy. *)
Definition defaultIncome (t : Template) : number :=
  let sum := fold_left (fun acc c => add acc (or_zero_if_nullish (tc_amount c)))
               (t_categories t) (Fin 0) in
  match sum with
  | Fin z => if z =? 0 then Fin 5000 else Fin z
  | NaN => Fin 5000
  end.

(** [formattedCategories]; [uuid i] is the value of the [i]-th call of
    [uuidv4()]. *)
Definition formattedCategories (uuid : nat -> string) (t : Template)
  : list BudgetCategory :=
  imap (fun i cat =>
          Category (uuid i) (tc_name cat)
            (ANumber (or_zero_if_nullish (tc_amount cat))) None [])
       (t_categories t).

(** [newBudgetData]; [today] is [new Date().toISOString().split('T')[0]]. *)
Definition newBudgetData (uuid : nat -> string) (today : string) (t : Template)
  : obj :=
  {[ "name" := VStr (t_name t ++ " Budget");
     "amount" := VNum (defaultIncome t);
     "start_date" := VStr today;
     "categories" := VCategories (formattedCategories uuid t) ]}.

(** [t => t.id === i], the test of the lookup in [handleApplyTemplate]. *)
Definition has_id (i : string) (t : Template) : bool := String.eqb (t_id t) i.

(** [handleApplyTemplate] up to the navigation.  Without a selected
    template it returns at once.  Otherwise the template is looked up by
    id in the life-event templates followed by the lifestyle templates,
    and the budget made from it is created.  The handler catches every
    error and shows a message; here the error is the outcome. *)
Definition handleApplyTemplate (s : Session) (uuid : nat -> string)
    (today : string) (lifeEvents lifestyle : list Template)
    (selectedTemplate : option string) : Action (option obj) :=
  match selectedTemplate with
  | None | Some "" => Return None
  | Some selected =>
      match find (has_id selected) (lifeEvents ++ lifestyle)%list with
      | None => Throw "Template not found"
      | Some template =>
          newBudget ← createBudget s (newBudgetData uuid today template);
          match newBudget with
          | Some budget =>
              if truthy (budget !! "id") then Return (Some budget)
              else Throw "Failed to create budget"
          | None => Throw "Failed to create budget"
          end
      end
  end.

(** The own amounts of the categories that have subcategories, the part
    of the tree the server's total leaves out. *)
Fixpoint parent_amounts (c : BudgetCategory) : number :=
  match c with
  | Category _ _ amount _ subs =>
      add (if non_empty subs then or_zero amount else Fin 0)
          (sum_numbers (map parent_amounts subs))
  end.

(** The number of entries of the list that [addCategory] pushes to: the
    root list for the empty path, else the subcategories of the category
    the path leads to. *)
Fixpoint slots (path : list nat) (categories : list BudgetCategory) : nat :=
  match path with
  | [] => length categories
  | i :: rest =>
      match categories !! i with
      | Some c => slots rest (subcategories c)
      | None => 0%nat
      end
  end.

(** What a category counts for in the server's total once it has no
    subcategories: its own amount. *)
Definition own_amount (c : BudgetCategory) : number := or_zero (cat_amount c).

(** A call that writes a document writes it in the name of [user_id]. *)
Definition writes_for (user_id : string) (c : Call) : Prop :=
  match written c with
  | Some payload => payload !! "user_id" = Some (VStr user_id)
  | None => True
  end.

(** A call that writes a document writes [end_date] as given. *)
Definition writes_end_date (end_date : option value) (c : Call) : Prop :=
  match written c with
  | Some payload => payload !! "end_date" = end_date
  | None => True
  end.

(** A budget that carries an array of categories and the server's total
    of that array. *)
Definition carries_its_total (budget : obj) : Prop :=
  exists cs, budget !! "categories" = Some (VCategories cs)
             /\ budget !! "total_allocated"
                = Some (VNum (calculateTotalAllocated cs)).

(* ===================================================================== *)
(** ** The range in which the sums are exact *)
(* ===================================================================== *)

(** The totals add JavaScript numbers, which are doubles.  On whole
    numbers the sum of two doubles is their exact sum as long as it lies
    within [2^53] of zero, and there [add] is the addition of the code.
    [magnitude] is the sum of the absolute values of the amounts that
    [calculateTotalAllocated] counts: no running total of its loops, at
    any depth and in any order of the categories, lies further from
    zero. *)
Definition exact_range : Z := 2 ^ 53.

Fixpoint weight (c : BudgetCategory) : Z :=
  match c with
  | Category _ _ amount _ subs =>
      if non_empty subs
      then fold_right (fun x rest => weight x + rest) 0 subs
      else Z.abs (units_of (or_zero amount))
  end.

Definition magnitude (categories : list BudgetCategory) : Z :=
  fold_right (fun c rest => weight c + rest) 0 categories.

(** The same for the dashboard, which also adds the own amount of a
    category that has subcategories. *)
Fixpoint full_weight (c : BudgetCategory) : Z :=
  match c with
  | Category _ _ amount _ subs =>
      Z.abs (units_of (or_zero amount))
      + fold_right (fun x rest => full_weight x + rest) 0 subs
  end.

Definition full_magnitude (categories : list BudgetCategory) : Z :=
  fold_right (fun c rest => full_weight c + rest) 0 categories.

(** What the value of an edit adds to the magnitude of the tree. *)
Definition field_weight (f : Field) : Z :=
  match f with
  | FName _ => 0
  | FAmount value => Z.abs (units_of (or_zero (ANumber value)))
  end.

(* ===================================================================== *)
(** ** What the datastore hands out *)
(* ===================================================================== *)



(** The rows in the answer to a request. *)
Definition rows_of {X} (q : Request X) : Result X -> list obj :=
  match q in Request X return Result X -> list obj with
  | SelectMany _ _ => fun r => default [] (data r)
  | SelectSingle _ _ => fun r => option_list (data r)
  | InsertSingle _ => fun r => option_list (data r)
  | UpdateSingle _ _ _ => fun r => option_list (data r)
  | Delete _ _ => fun _ => []
  end.

(** All the rows the datastore hands out in the course of a run. *)
Fixpoint handed_out {A} (D : Datastore) (p : Action A) (s : db D) : list obj :=
  match p with
  | Return _ | Throw _ => []
  | Await q k =>
      let '(s', r) := answer D _ s q in
      (rows_of q r ++ handed_out D (k r) s')%list
  end.

(** The [categories] of a row are an array, or a value that [||] takes
    for nothing: absent, [null], [0], [NaN] or the empty string. *)
Definition array_or_nothing (row : obj) : bool :=
  match row !! "categories" with
  | Some (VCategories _) => true
  | x => negb (truthy x)
  end.

(* ===================================================================== *)
(** ** Category totals: properties *)
(* ===================================================================== *)

Lemma add_comm (a b : number) : add a b = add b a.
Proof. destruct a, b; simpl; try reflexivity. f_equal; lia. Qed.

Lemma add_assoc (a b c : number) : add a (add b c) = add (add a b) c.
Proof. destruct a, b, c; simpl; try reflexivity. f_equal; lia. Qed.

Lemma add_zero_l (a : number) : add (Fin 0) a = a.
Proof. destruct a; simpl; [reflexivity | f_equal; lia]. Qed.

Lemma add_zero_r (a : number) : add a (Fin 0) = a.
Proof. rewrite add_comm. apply add_zero_l. Qed.

(** A loop that adds [f c] to a running total computes the start value
    plus the sum of the [f c]. *)
Lemma loop_is_sum {A} (f : A -> number) (l : list A) (start : number) :
  fold_left (fun total c => add total (f c)) l start
  = add start (sum_numbers (map f l)).
Proof.
  revert start. induction l as [|c l IH]; intros start; simpl.
  - symmetry. apply add_zero_r.
  - rewrite IH. symmetry. apply add_assoc.
Qed.

Lemma loop_ext {A} (f g : A -> number) (l : list A) (start : number) :
  Forall (fun c => f c = g c) l ->
  fold_left (fun total c => add total (f c)) l start
  = fold_left (fun total c => add total (g c)) l start.
Proof.
  intros H. revert start. induction H as [|c l Hc _ IH]; intros start; simpl.
  - reflexivity.
  - rewrite Hc. apply IH.
Qed.

Lemma or_zero_spec (a : JsAmount) : or_zero a = amount_or_0 a.
Proof.
  destruct a as [| |[|z]]; try reflexivity.
  unfold or_zero; simpl. destruct (Z.eqb_spec z 0) as [->|]; reflexivity.
Qed.

(** The equation of the source: the loop body tests the subcategories of
    each category and recurses on them. *)
Lemma calculateTotalAllocated_unfold (categories : list BudgetCategory) :
  calculateTotalAllocated categories
  = fold_left
      (fun total category =>
         if non_empty (subcategories category)
         then add total (calculateTotalAllocated (subcategories category))
         else add total (or_zero (cat_amount category)))
      categories (Fin 0).
Proof.
  unfold calculateTotalAllocated at 1. generalize (Fin 0).
  induction categories as [|[i n a col subs] l IH]; intros start.
  - reflexivity.
  - cbn [fold_left]. rewrite IH. f_equal.
    cbn [allocated_by subcategories cat_amount].
    destruct (non_empty subs); reflexivity.
Qed.

Lemma allocated_by_effective (c : BudgetCategory) :
  allocated_by c = effective_allocation c.
Proof.
  induction c as [i n a col subs IH] using BudgetCategory_forall_ind.
  destruct subs as [|s rest].
  - simpl. apply or_zero_spec.
  - cbn [allocated_by non_empty effective_allocation].
    rewrite loop_is_sum, add_zero_l.
    f_equal. apply map_ext_Forall, IH.
Qed.

(** The sum of the specification, computed by a loop. *)
Lemma calculateTotalAllocated_sum (categories : list BudgetCategory) :
  calculateTotalAllocated categories
  = sum_numbers (map effective_allocation categories).
Proof.
  unfold calculateTotalAllocated. rewrite loop_is_sum, add_zero_l.
  f_equal. apply map_ext_Forall, Forall_forall.
  intros c _. apply allocated_by_effective.
Qed.

(** The form's module-level total is the server's. *)
Lemma form_reduce_step_allocated_by (c : BudgetCategory) :
  BudgetForm.reduce_step c = allocated_by c.
Proof.
  induction c as [i n a col subs IH] using BudgetCategory_forall_ind.
  cbn [BudgetForm.reduce_step allocated_by].
  destruct (non_empty subs); [|reflexivity].
  apply loop_ext, IH.
Qed.

Lemma form_calculateTotalAllocated_mirrors (categories : list BudgetCategory) :
  BudgetForm.calculateTotalAllocated categories
  = calculateTotalAllocated categories.
Proof.
  apply loop_ext, Forall_forall. intros c _.
  apply form_reduce_step_allocated_by.
Qed.

Lemma fold_right_and_Forall {A} (P : A -> Prop) (l : list A) :
  fold_right (fun x rest => P x /\ rest) True l -> Forall P l.
Proof.
  induction l as [|x r IH]; simpl; intros H.
  - constructor.
  - destruct H as [Hx Hr]. constructor; [exact Hx | apply IH, Hr].
Qed.

Lemma plain_amounts_subs i n a col s rest :
  plain_amounts (Category i n a col (s :: rest)) ->
  Forall plain_amounts (s :: rest).
Proof. cbn [plain_amounts non_empty]. apply fold_right_and_Forall. Qed.

(** On such trees the form's memo agrees with the server. *)
Lemma form_subTotal_allocated_by (c : BudgetCategory) :
  plain_amounts c -> BudgetForm.subTotal c = allocated_by c.
Proof.
  induction c as [i n a col subs IH] using BudgetCategory_forall_ind.
  intros Hc. destruct subs as [|s rest].
  - exact Hc.
  - apply plain_amounts_subs in Hc.
    cbn [BudgetForm.subTotal allocated_by non_empty].
    apply loop_ext. revert IH Hc. generalize (s :: rest). clear.
    induction l as [|x r IHr]; intros IH Hc; constructor.
    + apply (Forall_inv IH), (Forall_inv Hc).
    + apply IHr; [apply (Forall_inv_tail IH) | apply (Forall_inv_tail Hc)].
Qed.

Lemma form_calculateTotal_mirrors (categories : list BudgetCategory) :
  Forall plain_amounts categories ->
  BudgetForm.calculateTotal categories = calculateTotalAllocated categories.
Proof.
  intros H. apply loop_ext. eapply Forall_impl; [exact H|].
  intros c Hc. apply form_subTotal_allocated_by, Hc.
Qed.

Lemma dashboard_turn_all_amounts (c : BudgetCategory) (total : number) :
  BudgetDetails.turn total c = add total (all_amounts c).
Proof.
  revert total.
  induction c as [i n a col subs IH] using BudgetCategory_forall_ind.
  intros total. cbn [BudgetDetails.turn all_amounts].
  assert (Hfold : forall start,
             fold_left BudgetDetails.turn subs start
             = add start (sum_numbers (map all_amounts subs))).
  { clear -IH. induction IH as [|x r Hx _ IHr]; intros start; simpl.
    - symmetry. apply add_zero_r.
    - rewrite Hx, IHr. symmetry. apply add_assoc. }
  destruct subs as [|s rest].
  - simpl. rewrite add_zero_r. reflexivity.
  - cbn [non_empty]. rewrite Hfold, add_zero_l. symmetry. apply add_assoc.
Qed.

Lemma dashboard_calculateTotal_sum (categories : list BudgetCategory) :
  BudgetDetails.calculateTotal categories
  = sum_numbers (map all_amounts categories).
Proof.
  unfold BudgetDetails.calculateTotal.
  rewrite <- (add_zero_l (sum_numbers _)). generalize (Fin 0).
  induction categories as [|c l IH]; intros start; simpl.
  - symmetry. apply add_zero_r.
  - rewrite dashboard_turn_all_amounts, IH. symmetry. apply add_assoc.
Qed.

(** The detail page sums the same amounts as the dashboard. *)
Lemma detail_reduce_step_all_amounts (c : BudgetCategory) (sum : number) :
  BudgetDetail.reduce_step sum c = add sum (all_amounts c).
Proof.
  revert sum.
  induction c as [i n a col subs IH] using BudgetCategory_forall_ind.
  intros sum. cbn [BudgetDetail.reduce_step all_amounts].
  assert (Hfold : forall start,
             fold_left BudgetDetail.reduce_step subs start
             = add start (sum_numbers (map all_amounts subs))).
  { clear -IH. induction IH as [|x r Hx _ IHr]; intros start; simpl.
    - symmetry. apply add_zero_r.
    - rewrite Hx, IHr. symmetry. apply add_assoc. }
  rewrite Hfold, add_zero_l. symmetry. apply add_assoc.
Qed.

Lemma sumJsonCategories_dashboard (categories : list BudgetCategory) :
  BudgetDetail.sumJsonCategories categories
  = BudgetDetails.calculateTotal categories.
Proof.
  rewrite dashboard_calculateTotal_sum.
  unfold BudgetDetail.sumJsonCategories.
  rewrite <- (add_zero_l (sum_numbers _)). generalize (Fin 0).
  induction categories as [|c l IH]; intros start; simpl.
  - symmetry. apply add_zero_r.
  - rewrite detail_reduce_step_all_amounts, IH. symmetry. apply add_assoc.
Qed.

(* ===================================================================== *)
(** ** The fallback on a missing column *)
(* ===================================================================== *)

Lemma getBudgets_block (user_id : string) :
  getBudgets (signed_in user_id)
  = fallback_block (SelectMany list_columns user_id)
      (SelectMany fallback_columns user_id)
      (fun e => String.eqb (code e) "42703")
      "Failed to fetch budgets: "
      (fun budgets => map with_total (default [] budgets)).
Proof. reflexivity. Qed.

Lemma createBudget_block (user_id : string) (budgetData insertData : obj) :
  create_payload user_id budgetData = inr insertData ->
  createBudget (signed_in user_id) budgetData
  = fallback_block (InsertSingle insertData)
      (InsertSingle (delete "categories" insertData))
      is_missing_column "Error creating budget: " (fun budget => budget).
Proof. intros H. unfold createBudget. simpl. rewrite H. reflexivity. Qed.

Lemma updateBudget_block (user_id id : string) (budgetData updateData : obj) :
  update_payload budgetData = inr updateData ->
  updateBudget (signed_in user_id) id budgetData
  = fallback_block (UpdateSingle updateData id user_id)
      (UpdateSingle (delete "categories" updateData) id user_id)
      is_missing_column "Error updating budget: " (fun budget => budget).
Proof. intros H. unfold updateBudget. simpl. rewrite H. reflexivity. Qed.

Lemma fallback_block_retries_once {X A} (D : Datastore) (s : db D)
    (first retry : Request X) recognised prefix (ret : option X -> A) :
  retries_once D s (fallback_block first retry recognised prefix ret)
    first retry recognised prefix ret.
Proof.
  unfold retries_once, fallback_block. simpl.
  destruct (answer D X s first) as [s1 [d1 [e1|]]]; simpl; [|reflexivity].
  destruct (recognised e1); simpl; [|reflexivity].
  destruct (answer D X s1 retry) as [s2 [d2 [e2|]]]; reflexivity.
Qed.

(** The block asks the first request, and at most the retry after it. *)
Lemma fallback_block_calls {X A} (D : Datastore) (s : db D)
    (first retry : Request X) recognised prefix (ret : option X -> A) :
  calls (run D (fallback_block first retry recognised prefix ret) s)
  = [call first]
  \/ calls (run D (fallback_block first retry recognised prefix ret) s)
     = [call first; call retry].
Proof.
  pose proof (fallback_block_retries_once D s first retry recognised prefix ret)
    as H.
  unfold retries_once in H.
  remember (run D (fallback_block first retry recognised prefix ret) s) as t
    eqn:Ht. clear Ht.
  destruct (answer D X s first) as [s1 [d1 [e1|]]]; simpl in H.
  - destruct (recognised e1).
    + destruct (answer D X s1 retry) as [s2 r2]. rewrite H. right. reflexivity.
    + rewrite H. left. reflexivity.
  - rewrite H. left. reflexivity.
Qed.

(* ===================================================================== *)
(** ** What create and update write *)
(* ===================================================================== *)

Lemma lookup_cond_insert_ne (b : bool) (m : obj) (k k' : string) (v : value) :
  k <> k' -> (if b then <[k := v]> m else m) !! k' = m !! k'.
Proof. intros H. destruct b; [by rewrite lookup_insert_ne | reflexivity]. Qed.

(** Reading a property back after the inserts and deletes of the code. *)
Ltac lookups :=
  repeat first
    [ rewrite lookup_insert_eq
    | rewrite lookup_cond_insert_ne by (try done; congruence)
    | rewrite lookup_delete_eq
    | rewrite lookup_insert_ne by (try done; congruence)
    | rewrite lookup_delete_ne by (try done; congruence) ].

(** Rewriting with what is known of the properties of the input. *)
Ltac norm :=
  repeat first
    [ progress lookups
    | match goal with
      | H : ?m !! ?k = _ |- context [?m !! ?k] => rewrite H
      | H : is_empty_string ?x = _ |- context [is_empty_string ?x] => rewrite H
      | H : is_nullish ?x = _ |- context [is_nullish ?x] => rewrite H
      | H : truthy ?x = _ |- context [truthy ?x] => rewrite H
      end
    | progress cbn [is_empty_string is_nullish negb andb assign] ].

Lemma truthy_is_Some (x : option value) :
  truthy x = true -> exists v, x = Some v.
Proof. destruct x as [v|]; [eauto | discriminate]. Qed.

(** The shapes of the [end_date] property, as the code tells them
    apart. *)
Lemma end_date_cases (x : option value) :
  (x = None \/ x = Some VNull \/ x = Some (VStr ""))
  \/ (is_empty_string x = false /\ is_nullish x = false).
Proof. destruct x as [[|[|c e]| |]|]; auto. Qed.

Lemma blank_is_blank (x : option value) :
  x = None \/ x = Some VNull \/ x = Some (VStr "") ->
  is_empty_string x = true \/ is_nullish x = true.
Proof. intros [->|[->| ->]]; auto. Qed.

Lemma create_payload_inl (user_id : string) (budgetData : obj) (msg : string) :
  create_payload user_id budgetData = inl msg ->
  truthy (budgetData !! "start_date") = false /\ msg = ValidationError.
Proof.
  unfold create_payload. cbv zeta. lookups.
  destruct (truthy (budgetData !! "start_date")); simpl;
    try discriminate; intros [= <-]; auto.
Qed.

Lemma create_payload_rejects (user_id : string) (budgetData : obj) :
  truthy (budgetData !! "start_date") = false ->
  create_payload user_id budgetData = inl ValidationError.
Proof.
  intros E. unfold create_payload. cbv zeta. lookups.
  rewrite E. reflexivity.
Qed.

(** The properties of the document [createBudget] hands to [insert]. *)
Lemma create_payload_inr (user_id : string) (budgetData insertData : obj) :
  create_payload user_id budgetData = inr insertData ->
  truthy (budgetData !! "start_date") = true
  /\ insertData !! "start_date" = budgetData !! "start_date"
  /\ insertData !! "total_allocated" = None
  /\ insertData !! "user_id" = Some (VStr user_id)
  /\ (end_date_blank budgetData ->
      insertData !! "end_date" = budgetData !! "start_date")
  /\ (~ end_date_blank budgetData ->
      insertData !! "end_date" = budgetData !! "end_date").
Proof.
  intros H.
  destruct (truthy (budgetData !! "start_date")) eqn:Hs;
    [|by rewrite create_payload_rejects in H].
  destruct (truthy_is_Some _ Hs) as [sd Hsd]. rewrite Hsd in Hs.
  unfold create_payload in H. cbv zeta in H. revert H.
  unfold end_date_blank.
  destruct (end_date_cases (budgetData !! "end_date")) as [Hb|[He Hn]].
  - destruct Hb as [He|[He|He]]; norm; intros [= <-]; norm;
      repeat split; try done; intros Hx; exfalso; apply Hx; auto.
  - norm. intros [= <-]. norm. repeat split; try done.
    intros Hb. destruct (blank_is_blank _ Hb); congruence.
Qed.

(** The properties of the document [updateBudget] hands to [update]. *)
Lemma update_payload_inr (budgetData updateData : obj) :
  update_payload budgetData = inr updateData ->
  updateData !! "total_allocated" = None
  /\ (forall k, k <> "total_allocated" -> k <> "end_date" ->
      updateData !! k = budgetData !! k)
  /\ (end_date_blank budgetData ->
      truthy (budgetData !! "start_date") = true ->
      updateData !! "end_date" = budgetData !! "start_date")
  /\ (budgetData !! "end_date" = None ->
      truthy (budgetData !! "start_date") = false ->
      updateData !! "end_date" = None)
  /\ (~ end_date_blank budgetData ->
      updateData !! "end_date" = budgetData !! "end_date").
Proof.
  unfold update_payload. cbv zeta. unfold end_date_blank.
  destruct (is_empty_string (budgetData !! "start_date")) eqn:Hes.
  { norm. discriminate. }
  destruct (end_date_cases (budgetData !! "end_date")) as [Hb|[He Hn]].
  - destruct (truthy (budgetData !! "start_date")) eqn:Hs.
    + destruct (truthy_is_Some _ Hs) as [sd Hsd].
      rewrite Hsd in Hs, Hes.
      destruct Hb as [He|[He|He]]; norm; intros [= <-]; norm;
        repeat split; try done;
        try (by intros k H1 H2; lookups);
        try (by intros Hx; exfalso; apply Hx; auto).
    + destruct Hb as [He|[He|He]]; norm; intros [= <-]; norm;
        repeat split; try done;
        try (by intros k H1 H2; lookups);
        try (by intros Hx; exfalso; apply Hx; auto).
  - norm. intros [= <-]. norm. repeat split; try done;
      try (by intros k H1 H2; lookups);
      try (intros Hb; destruct (blank_is_blank _ Hb); congruence);
      try (intros Hx; rewrite Hx in Hn; discriminate).
Qed.

Lemma update_payload_inl (budgetData : obj) (msg : string) :
  update_payload budgetData = inl msg -> msg = UpdateValidationError.
Proof.
  unfold update_payload. cbv zeta. lookups.
  destruct (is_empty_string (budgetData !! "start_date"));
    [by intros [= <-] | discriminate].
Qed.

(* ===================================================================== *)
(** ** The requests of create and update *)
(* ===================================================================== *)

Lemma createBudget_calls (D : Datastore) (s : db D) (sess : Session)
    (budgetData : obj) :
  calls (run D (createBudget sess budgetData) s) = []
  \/ exists user_id insertData,
      sess = signed_in user_id
      /\ create_payload user_id budgetData = inr insertData
      /\ (calls (run D (createBudget sess budgetData) s)
          = [call (InsertSingle insertData)]
          \/ calls (run D (createBudget sess budgetData) s)
             = [call (InsertSingle insertData);
                call (InsertSingle (delete "categories" insertData))]).
Proof.
  destruct sess as [[|] [user_id|]]; try (left; reflexivity).
  destruct (create_payload user_id budgetData) as [msg|insertData] eqn:E.
  - left. unfold createBudget. simpl. rewrite E. reflexivity.
  - right. exists user_id, insertData. split; [reflexivity|]. split; [exact E|].
    change (mkSession true (Some user_id)) with (signed_in user_id).
    rewrite (createBudget_block _ _ _ E). apply fallback_block_calls.
Qed.

Lemma updateBudget_calls (D : Datastore) (s : db D) (sess : Session)
    (id : string) (budgetData : obj) :
  calls (run D (updateBudget sess id budgetData) s) = []
  \/ exists user_id updateData,
      sess = signed_in user_id
      /\ update_payload budgetData = inr updateData
      /\ (calls (run D (updateBudget sess id budgetData) s)
          = [call (UpdateSingle updateData id user_id)]
          \/ calls (run D (updateBudget sess id budgetData) s)
             = [call (UpdateSingle updateData id user_id);
                call (UpdateSingle (delete "categories" updateData)
                        id user_id)]).
Proof.
  destruct sess as [[|] [user_id|]]; try (left; reflexivity).
  destruct (update_payload budgetData) as [msg|updateData] eqn:E.
  - left. unfold updateBudget. simpl. rewrite E. reflexivity.
  - right. exists user_id, updateData. split; [reflexivity|].
    split; [reflexivity|].
    change (mkSession true (Some user_id)) with (signed_in user_id).
    rewrite (updateBudget_block _ _ _ _ E). apply fallback_block_calls.
Qed.

Example trip_total : calculateTotalAllocated trip_categories = Fin 700.
Proof. reflexivity. Qed.

Example parent_amount_excluded :
  calculateTotalAllocated parent_with_amount = Fin 30.
Proof. reflexivity. Qed.

Example missing_amount_is_zero :
  calculateTotalAllocated
    [leaf "a" AUndefined; leaf "b" (ANumber NaN); leaf "c" ANull;
     leaf "d" (ANumber (Fin 7))] = Fin 7.
Proof. reflexivity. Qed.

Example form_memo_missing_amount :
  BudgetForm.calculateTotal [leaf "a" AUndefined] = NaN
  /\ calculateTotalAllocated [leaf "a" AUndefined] = Fin 0.
Proof. split; reflexivity. Qed.

Example create_trip_payload : create_payload "alice" trip = inr trip_payload.
Proof. vm_compute. reflexivity. Qed.

(* ===================================================================== *)
(** ** The specification against the code *)
(* ===================================================================== *)

(** C1.  For every list of categories, [calculateTotalAllocated] returns
    the sum of the effective allocations of the categories: a category
    with subcategories contributes the sum of their effective
    allocations and not its own amount, a category without
    subcategories contributes its amount, and an amount that is missing,
    [null] or [NaN] counts as 0. *)
Theorem calculateTotalAllocated_effective (categories : list BudgetCategory) :
  calculateTotalAllocated categories = spec_total categories.
Proof. apply calculateTotalAllocated_sum. Qed.

(** C2.  The totals drift apart on a parent that has an amount of its
    own: for a parent of 9999 with leaves of 10 and 20 the server's
    [calculateTotalAllocated] and both totals of the budget form give 30,
    while the dashboard's [calculateTotal] gives 10029. *)
Theorem dashboard_total_differs_from_server :
  calculateTotalAllocated parent_with_amount = Fin 30
  /\ BudgetForm.calculateTotal parent_with_amount = Fin 30
  /\ BudgetForm.calculateTotalAllocated parent_with_amount = Fin 30
  /\ BudgetDetails.calculateTotal parent_with_amount = Fin 10029.
Proof. repeat split; reflexivity. Qed.

(** Without a client the three actions that throw name the client, and
    again nothing is asked of the datastore. *)
Lemma no_client_no_datastore_call (D : Datastore) (s : db D)
    (u : option string) (id : string) (partialData : obj) :
  run D (getBudgetById (mkSession false u) id) s
  = mkRun s [] (Thrown ClientError)
  /\ run D (createBudget (mkSession false u) partialData) s
     = mkRun s [] (Thrown ClientError)
  /\ run D (updateBudget (mkSession false u) id partialData) s
     = mkRun s [] (Thrown ClientError)
  /\ run D (deleteBudget (mkSession false u) id) s
     = mkRun s [] (Thrown ClientError)
  /\ run D (getBudgets (mkSession false u)) s = mkRun s [] (Returned []).
Proof. repeat split; reflexivity. Qed.

(** C3, as stated, fails for the listing: without a user [getBudgets]
    returns the empty list and does not fail. *)
Lemma list_without_user_does_not_fail :
  run reference (getBudgets anonymous) one_budget
  = mkRun one_budget [] (Returned [])
  /\ outcome (run reference (getBudgets anonymous) one_budget)
     <> Thrown AuthError.
Proof. split; [reflexivity | discriminate]. Qed.

(** C3, amended.  When no user is resolved, [getBudgetById],
    [updateBudget] and [deleteBudget] throw "Authentication required" and
    [getBudgets] returns the empty list; none of the four sends a request
    to the datastore, whose state stays as it was. *)
Theorem no_user_no_datastore_call (D : Datastore) (s : db D) (id : string)
    (partialData : obj) :
  run D (getBudgetById anonymous id) s = mkRun s [] (Thrown AuthError)
  /\ run D (updateBudget anonymous id partialData) s
     = mkRun s [] (Thrown AuthError)
  /\ run D (deleteBudget anonymous id) s = mkRun s [] (Thrown AuthError)
  /\ run D (getBudgets anonymous) s = mkRun s [] (Returned []).
Proof. repeat split; reflexivity. Qed.

(** C6.  A create call whose [start_date] is missing or empty sends no
    request to the datastore, whatever the session, and for a signed-in
    user it throws the validation error "Start date is required and
    cannot be empty.". *)
Theorem create_without_start_date (D : Datastore) (s : db D) (sess : Session)
    (user_id : string) (budgetData : obj) :
  start_date_blank budgetData ->
  run D (createBudget (signed_in user_id) budgetData) s
  = mkRun s [] (Thrown ValidationError)
  /\ calls (run D (createBudget sess budgetData) s) = []
  /\ final (run D (createBudget sess budgetData) s) = s
  /\ exists msg, outcome (run D (createBudget sess budgetData) s) = Thrown msg.
Proof.
  intros H.
  assert (E : forall u, create_payload u budgetData = inl ValidationError).
  { intros u. apply create_payload_rejects. by destruct H as [-> | ->]. }
  split.
  - unfold createBudget. simpl. rewrite E. reflexivity.
  - destruct sess as [[|] [u|]]; unfold createBudget; simpl; rewrite ?E;
      repeat split; eexists; reflexivity.
Qed.

Lemma create_without_start_date_witness :
  start_date_blank (delete "start_date" trip)
  /\ run reference (createBudget (signed_in "alice") (delete "start_date" trip))
       one_budget
     = mkRun one_budget [] (Thrown ValidationError).
Proof.
  assert (H : start_date_blank (delete "start_date" trip)).
  { left. reflexivity. }
  split; [exact H|].
  exact (proj1 (create_without_start_date reference one_budget anonymous
                  "alice" (delete "start_date" trip) H)).
Defined.

(** C10.  Whatever the datastore answers and whatever the input holds,
    no insert or update request of [createBudget] or [updateBudget]
    carries a [total_allocated] property; the retry without [categories]
    does not bring it back. *)
Theorem total_allocated_is_never_written (D : Datastore) (s : db D)
    (sess : Session) (id : string) (budgetData : obj) :
  Forall omits_total_allocated (calls (run D (createBudget sess budgetData) s))
  /\ Forall omits_total_allocated
       (calls (run D (updateBudget sess id budgetData) s)).
Proof.
  split.
  - destruct (createBudget_calls D s sess budgetData)
      as [-> | (u & p & _ & E & Hc)]; [constructor|].
    apply create_payload_inr in E as (_ & _ & Ht & _).
    destruct Hc as [-> | ->]; repeat constructor;
      unfold omits_total_allocated; simpl; by lookups.
  - destruct (updateBudget_calls D s sess id budgetData)
      as [-> | (u & p & _ & E & Hc)]; [constructor|].
    apply update_payload_inr in E as (Ht & _).
    destruct Hc as [-> | ->]; repeat constructor;
      unfold omits_total_allocated; simpl; by lookups.
Qed.

Example total_allocated_is_stripped :
  calls (run reference
           (createBudget (signed_in "alice")
              (<["total_allocated" := VNum (Fin 700)]> trip))
           empty_table)
  = [call (InsertSingle trip_payload)].
Proof. vm_compute. reflexivity. Qed.





(** C4, as stated, fails for an update that names neither date: the
    stored end date stays what it was, here the 31st, and is not the
    stored start date. *)
Lemma update_without_dates_keeps_end_date :
  ({[ "amount" := VNum (Fin 500) ]} : obj) !! "end_date" = None
  /\ run reference
       (updateBudget (signed_in "alice") "b1" {[ "amount" := VNum (Fin 500) ]})
       one_budget
     = mkRun
         (mkBudgets {[ "b1" := <["amount" := VNum (Fin 500)]> stored_trip ]}
            true)
         [call (UpdateSingle {[ "amount" := VNum (Fin 500) ]} "b1" "alice")]
         (Returned (Some (<["amount" := VNum (Fin 500)]> stored_trip)))
  /\ (<["amount" := VNum (Fin 500)]> stored_trip) !! "end_date"
     = Some (VStr "2024-01-31")
  /\ (<["amount" := VNum (Fin 500)]> stored_trip) !! "start_date"
     = Some (VStr "2024-01-01").
Proof. repeat split; vm_compute; reflexivity. Qed.

(** C4, amended.  When [end_date] is omitted, [null] or the empty
    string: every document [createBudget] writes has [end_date] equal to
    its [start_date], the start date of the input, which is not blank;
    so has every document [updateBudget] writes, provided the partial
    data carries a non-empty [start_date].  An update that names neither
    [end_date] nor [start_date] writes no [end_date] at all. *)
Theorem blank_end_date_is_start_date (D : Datastore) (s : db D)
    (user_id id : string) (budgetData : obj) :
  end_date_blank budgetData ->
  Forall (ends_on_start (budgetData !! "start_date"))
    (calls (run D (createBudget (signed_in user_id) budgetData) s))
  /\ (truthy (budgetData !! "start_date") = true ->
      Forall (ends_on_start (budgetData !! "start_date"))
        (calls (run D (updateBudget (signed_in user_id) id budgetData) s)))
  /\ (budgetData !! "end_date" = None ->
      budgetData !! "start_date" = None ->
      Forall leaves_end_date
        (calls (run D (updateBudget (signed_in user_id) id budgetData) s))).
Proof.
  intros Hb. split; [|split].
  - destruct (createBudget_calls D s (signed_in user_id) budgetData)
      as [-> | (u & p & _ & E & Hc)]; [constructor|].
    apply create_payload_inr in E as (Hs & Hsd & _ & _ & He & _).
    specialize (He Hb).
    destruct Hc as [-> | ->]; repeat constructor; simpl; by lookups.
  - intros Hs.
    destruct (updateBudget_calls D s (signed_in user_id) id budgetData)
      as [-> | (u & p & _ & E & Hc)]; [constructor|].
    apply update_payload_inr in E as (_ & Hk & He & _).
    specialize (He Hb Hs).
    assert (Hsd : p !! "start_date" = budgetData !! "start_date")
      by (by apply Hk).
    destruct Hc as [-> | ->]; repeat constructor; simpl; by lookups.
  - intros He Hs.
    destruct (updateBudget_calls D s (signed_in user_id) id budgetData)
      as [-> | (u & p & _ & E & Hc)]; [constructor|].
    apply update_payload_inr in E as (_ & _ & _ & Hn & _).
    assert (Hp : p !! "end_date" = None) by (apply Hn; [done | by rewrite Hs]).
    destruct Hc as [-> | ->]; repeat constructor;
      unfold leaves_end_date; simpl; by lookups.
Qed.

Lemma blank_end_date_is_start_date_witness :
  (end_date_blank (<["end_date" := VStr ""]> trip)
   /\ Forall (ends_on_start (Some (VStr "2024-01-01")))
        [call (InsertSingle trip_payload)]
   /\ Forall (ends_on_start (Some (VStr "2024-01-01")))
        [call (UpdateSingle (<["end_date" := VStr "2024-01-01"]> trip)
                 "b1" "alice")])
  /\ (end_date_blank {[ "amount" := VNum (Fin 500) ]}
      /\ Forall leaves_end_date
           [call (UpdateSingle {[ "amount" := VNum (Fin 500) ]} "b1" "alice")]).
Proof.
  assert (Hb : end_date_blank (<["end_date" := VStr ""]> trip)).
  { right. right. reflexivity. }
  assert (Ha : end_date_blank {[ "amount" := VNum (Fin 500) ]}).
  { left. reflexivity. }
  split; split; [exact Hb | | exact Ha |].
  - destruct (blank_end_date_is_start_date reference one_budget
                "alice" "b1" (<["end_date" := VStr ""]> trip) Hb)
      as (Hcreate & Hupdate & _).
    split; [exact Hcreate|]. apply Hupdate. reflexivity.
  - destruct (blank_end_date_is_start_date reference one_budget
                "alice" "b1" {[ "amount" := VNum (Fin 500) ]} Ha)
      as (_ & _ & Hleave).
    apply Hleave; reflexivity.
Defined.

(* ===================================================================== *)
(** ** The actions on the reference datastore *)
(* ===================================================================== *)

Lemma find_row_lookup (t : Budgets) (id user_id : string) (row : obj) :
  find_row t id user_id = Some row ->
  rows t !! id = Some row /\ owned_by user_id row = true.
Proof.
  unfold find_row. destruct (rows t !! id) as [r|]; [|discriminate].
  destruct (owned_by user_id r) eqn:E; [|discriminate].
  intros [= <-]. auto.
Qed.

(** [getBudgetById] on the reference datastore: the budget with its
    total when the row is there and owned, and an error when it is not. *)
Lemma getBudgetById_found (t : Budgets) (user_id id : string) (budget : obj) :
  find_row t id user_id = Some budget ->
  run reference (getBudgetById (signed_in user_id) id) t
  = mkRun t [call (SelectSingle id user_id)]
      (Returned
         (Some (<["total_allocated" :=
                    VNum (calculateTotalAllocated
                            (categories_or_empty (budget !! "categories")))]>
                  budget))).
Proof. intros H. unfold getBudgetById. simpl. rewrite H. reflexivity. Qed.

Lemma getBudgetById_not_found (t : Budgets) (user_id id : string) :
  find_row t id user_id = None ->
  run reference (getBudgetById (signed_in user_id) id) t
  = mkRun t [call (SelectSingle id user_id)]
      (Thrown ("Failed to fetch budget: " ++ message no_row)).
Proof. intros H. unfold getBudgetById. simpl. rewrite H. reflexivity. Qed.

(** The branch [if (!budget) return null] is taken only if the datastore
    answers with neither a row nor an error. *)
Lemma getBudgetById_null_answer (D : Datastore) (s s' : db D)
    (user_id id : string) :
  answer D obj s (SelectSingle id user_id) = (s', mkResult None None) ->
  run D (getBudgetById (signed_in user_id) id) s
  = mkRun s' [call (SelectSingle id user_id)] (Returned None).
Proof. intros H. unfold getBudgetById. simpl. rewrite H. reflexivity. Qed.

(** C7.  On a table that holds no budget "b2", [getBudgetById] for the
    signed-in owner throws instead of returning nothing: [.single()]
    reports zero rows as an error, and the test of [error] comes before
    the test of [budget]. *)
Theorem get_missing_budget_throws :
  find_row one_budget "b2" "alice" = None
  /\ run reference (getBudgetById (signed_in "alice") "b2") one_budget
     = mkRun one_budget [call (SelectSingle "b2" "alice")]
         (Thrown
            "Failed to fetch budget: JSON object requested, multiple (or no) rows returned").
Proof. split; vm_compute; reflexivity. Qed.

Example get_stored_trip :
  outcome (run reference (getBudgetById (signed_in "alice") "b1") one_budget)
  = Returned (Some (<["total_allocated" := VNum (Fin 700)]> stored_trip)).
Proof. vm_compute. reflexivity. Qed.

(** [deleteBudget] on the reference datastore. *)
Lemma deleteBudget_run (t : Budgets) (user_id id : string) :
  run reference (deleteBudget (signed_in user_id) id) t
  = mkRun
      (match find_row t id user_id with
       | Some _ => mkBudgets (delete id (rows t)) (categories_column t)
       | None => t
       end)
      [call (Delete id user_id)] (Returned true).
Proof.
  unfold deleteBudget. simpl.
  destruct (find_row t id user_id); reflexivity.
Qed.

Lemma find_row_deleted (t : Budgets) (user_id id : string) :
  find_row (final (run reference (deleteBudget (signed_in user_id) id) t))
    id user_id = None.
Proof.
  rewrite deleteBudget_run. cbn [final].
  destruct (find_row t id user_id) eqn:E; [|exact E].
  unfold find_row. cbn [rows]. by rewrite lookup_delete_eq.
Qed.

(** C9.  On the reference datastore [deleteBudget] of a signed-in user
    always completes with [{ success: true }]; after it no budget with
    that id is left for the owner, and a second call completes the same
    way and leaves the table as the first call left it. *)
Theorem delete_is_idempotent (t : Budgets) (user_id id : string) :
  outcome (run reference (deleteBudget (signed_in user_id) id) t)
  = Returned true
  /\ find_row (final (run reference (deleteBudget (signed_in user_id) id) t))
       id user_id = None
  /\ run reference (deleteBudget (signed_in user_id) id)
       (final (run reference (deleteBudget (signed_in user_id) id) t))
     = mkRun (final (run reference (deleteBudget (signed_in user_id) id) t))
         [call (Delete id user_id)] (Returned true).
Proof.
  split; [by rewrite deleteBudget_run|].
  split; [apply find_row_deleted|].
  rewrite (deleteBudget_run (final _)).
  by rewrite find_row_deleted.
Qed.

(** Deleting what is not there leaves the table as it is. *)
Lemma delete_missing_budget (t : Budgets) (user_id id : string) :
  find_row t id user_id = None ->
  run reference (deleteBudget (signed_in user_id) id) t
  = mkRun t [call (Delete id user_id)] (Returned true).
Proof. intros H. rewrite deleteBudget_run. by rewrite H. Qed.

(** For any datastore, [deleteBudget] fails exactly when the datastore
    reports an error. *)
Lemma deleteBudget_outcome (D : Datastore) (s : db D) (user_id id : string) :
  outcome (run D (deleteBudget (signed_in user_id) id) s)
  = match error (answer D unit s (Delete id user_id)).2 with
    | Some e => Thrown ("Failed to delete budget: " ++ message e)
    | None => Returned true
    end.
Proof.
  unfold deleteBudget. simpl.
  destruct (answer D unit s (Delete id user_id)) as [s' [d [e|]]]; reflexivity.
Qed.

(** An update request that the reference datastore answers without error
    has merged the document into the one row it selected. *)
Lemma reference_update_ok (t t' : Budgets) (payload : obj)
    (id user_id : string) (d : option obj) :
  reference_answer obj t (UpdateSingle payload id user_id)
  = (t', mkResult d None) ->
  exists row,
    find_row t id user_id = Some row
    /\ d = Some (payload ∪ row)
    /\ t' = mkBudgets (<[id := payload ∪ row]> (rows t)) (categories_column t).
Proof.
  simpl. destruct (unknown_column t _); [discriminate|].
  destruct (find_row t id user_id) as [row|]; [|discriminate].
  intros [= <- <-]. eauto.
Qed.









(** An insert request that the reference datastore answers without error
    has stored the document under the id it returns. *)
Lemma reference_insert_ok (t t' : Budgets) (payload : obj) (d : option obj) :
  reference_answer obj t (InsertSingle payload) = (t', mkResult d None) ->
  exists id,
    d = Some (<["id" := VStr id]> payload)
    /\ rows t' !! id = Some (<["id" := VStr id]> payload).
Proof.
  simpl. destruct (unknown_column t _); [discriminate|].
  set (id := match payload !! "id" with
             | Some (VStr i) => i
             | _ => fresh (dom (rows t))
             end).
  destruct (rows t !! id); [discriminate|].
  intros [= <- <-]. exists id. split; [reflexivity|].
  cbn [rows]. apply lookup_insert_eq.
Qed.

(** On the reference datastore, the budget a create call returns is
    stored, and when the input left [end_date] blank its [end_date] is
    its [start_date]. *)
Lemma created_budget_ends_on_start (t t' : Budgets) (user_id : string)
    (budgetData created : obj) (cs : list Call) :
  end_date_blank budgetData ->
  run reference (createBudget (signed_in user_id) budgetData) t
  = mkRun t' cs (Returned (Some created)) ->
  (exists id, rows t' !! id = Some created)
  /\ created !! "end_date" = created !! "start_date"
  /\ truthy (created !! "end_date") = true.
Proof.
  intros Hb Hrun.
  destruct (create_payload user_id budgetData) as [msg|p] eqn:E.
  { unfold createBudget in Hrun. simpl in Hrun. rewrite E in Hrun.
    discriminate. }
  rewrite (createBudget_block _ _ _ E) in Hrun.
  apply create_payload_inr in E as (Hs & Hsd & _ & _ & He & _).
  specialize (He Hb).
  pose proof (fallback_block_retries_once reference t
                (InsertSingle p) (InsertSingle (delete "categories" p))
                is_missing_column "Error creating budget: "
                (fun budget => budget)) as R.
  unfold retries_once in R. cbn [answer reference] in R.
  destruct (reference_answer obj t (InsertSingle p))
    as [t1 [d1 [e1|]]] eqn:A1; cbn [error data] in R.
  - destruct (is_missing_column e1); [|rewrite R in Hrun; discriminate].
    destruct (reference_answer obj t1 (InsertSingle (delete "categories" p)))
      as [t2 [d2 [e2|]]] eqn:A2; cbn [error data] in R;
      rewrite R in Hrun; [discriminate|].
    injection Hrun as <- _ ->.
    apply reference_insert_ok in A2 as (i & [= ->] & Hi).
    split; [eauto|]. lookups. by rewrite He, Hsd.
  - rewrite R in Hrun. injection Hrun as <- _ ->.
    apply reference_insert_ok in A1 as (i & [= ->] & Hi).
    split; [eauto|]. lookups. by rewrite He, Hsd.
Qed.

Example create_trip_on_reference :
  run reference (createBudget (signed_in "alice") trip) empty_table
  = mkRun (mkBudgets {[ "0" := <["id" := VStr "0"]> trip_payload ]} true)
      [call (InsertSingle trip_payload)]
      (Returned (Some (<["id" := VStr "0"]> trip_payload))).
Proof. vm_compute. reflexivity. Qed.

(** Without the [categories] column the first insert is refused and the
    retry stores the budget without its categories. *)
Example create_trip_without_categories_column :
  run reference (createBudget (signed_in "alice") trip) (mkBudgets ∅ false)
  = mkRun
      (mkBudgets
         {[ "0" := <["id" := VStr "0"]> (delete "categories" trip_payload) ]}
         false)
      [call (InsertSingle trip_payload);
       call (InsertSingle (delete "categories" trip_payload))]
      (Returned (Some (<["id" := VStr "0"]> (delete "categories" trip_payload)))).
Proof. vm_compute. reflexivity. Qed.

(* ===================================================================== *)
(** ** Further properties of the category totals *)
(* ===================================================================== *)

Lemma sum_numbers_app (xs ys : list number) :
  sum_numbers (xs ++ ys) = add (sum_numbers xs) (sum_numbers ys).
Proof.
  induction xs as [|x xs IH]; simpl.
  - symmetry. apply add_zero_l.
  - rewrite IH. apply add_assoc.
Qed.

Lemma sum_numbers_Permutation (xs ys : list number) :
  Permutation xs ys -> sum_numbers xs = sum_numbers ys.
Proof.
  induction 1 as [|x xs ys _ IH|x y xs|xs ys zs _ IH1 _ IH2]; simpl.
  - reflexivity.
  - by rewrite IH.
  - rewrite !add_assoc. f_equal. apply add_comm.
  - by rewrite IH1.
Qed.

Lemma sum_numbers_finite (ns : list number) :
  Forall (fun n => n <> NaN) ns -> sum_numbers ns <> NaN.
Proof.
  induction 1 as [|n ns Hn _ IH]; simpl; [discriminate|].
  destruct n as [|x]; [done|]. destruct (sum_numbers ns); [done | discriminate].
Qed.

Lemma or_zero_finite (a : JsAmount) : or_zero a <> NaN.
Proof. rewrite or_zero_spec. by destruct a as [| |[|z]]. Qed.

Lemma allocated_by_finite (c : BudgetCategory) : allocated_by c <> NaN.
Proof.
  induction c as [i n a col subs IH] using BudgetCategory_forall_ind.
  cbn [allocated_by]. destruct (non_empty subs); [|apply or_zero_finite].
  rewrite loop_is_sum, add_zero_l. apply sum_numbers_finite.
  by apply Forall_map.
Qed.

Lemma calculateTotalAllocated_finite (categories : list BudgetCategory) :
  calculateTotalAllocated categories <> NaN.
Proof.
  unfold calculateTotalAllocated. rewrite loop_is_sum, add_zero_l.
  apply sum_numbers_finite, Forall_map, Forall_forall.
  intros c _. apply allocated_by_finite.
Qed.

Lemma total_units_spec (categories : list BudgetCategory) :
  calculateTotalAllocated categories = Fin (total_units categories).
Proof.
  unfold total_units.
  pose proof (calculateTotalAllocated_finite categories) as H.
  by destruct (calculateTotalAllocated categories).
Qed.

Lemma calculateTotalAllocated_as_sum (categories : list BudgetCategory) :
  calculateTotalAllocated categories
  = sum_numbers (map allocated_by categories).
Proof. unfold calculateTotalAllocated. by rewrite loop_is_sum, add_zero_l. Qed.

Lemma calculateTotalAllocated_app (xs ys : list BudgetCategory) :
  calculateTotalAllocated (xs ++ ys)
  = add (calculateTotalAllocated xs) (calculateTotalAllocated ys).
Proof. by rewrite !calculateTotalAllocated_as_sum, map_app, sum_numbers_app. Qed.

Lemma calculateTotalAllocated_one (c : BudgetCategory) :
  calculateTotalAllocated [c] = allocated_by c.
Proof. rewrite calculateTotalAllocated_as_sum. simpl. apply add_zero_r. Qed.

Lemma allocated_by_parent i n a col (subs : list BudgetCategory) :
  non_empty subs = true ->
  allocated_by (Category i n a col subs) = calculateTotalAllocated subs.
Proof. intros H. cbn [allocated_by]. by rewrite H. Qed.

(** Totals in units. *)
Lemma total_units_app (xs ys : list BudgetCategory) :
  total_units (xs ++ ys) = total_units xs + total_units ys.
Proof.
  unfold total_units at 1. rewrite calculateTotalAllocated_app.
  by rewrite !total_units_spec.
Qed.

Lemma total_units_cons (c : BudgetCategory) (l : list BudgetCategory) :
  total_units (c :: l) = total_units [c] + total_units l.
Proof. apply (total_units_app [c] l). Qed.

Lemma total_units_nil : total_units [] = 0.
Proof. reflexivity. Qed.

Lemma total_units_one i n a col (subs : list BudgetCategory) :
  total_units [Category i n a col subs]
  = if non_empty subs then total_units subs else units_of (or_zero a).
Proof.
  unfold total_units. rewrite calculateTotalAllocated_one.
  cbn [allocated_by]. by destruct (non_empty subs).
Qed.

(** The magnitude bounds the total, of the whole list and of any part of
    it. *)
Lemma weight_nonneg (c : BudgetCategory) : 0 <= weight c.
Proof.
  induction c as [i n a col subs IH] using BudgetCategory_forall_ind.
  cbn [weight]. destruct (non_empty subs); [|lia].
  induction IH as [|x l Hx _ IHl]; simpl; lia.
Qed.

Lemma magnitude_nonneg (categories : list BudgetCategory) :
  0 <= magnitude categories.
Proof.
  induction categories as [|c l IH]; simpl; [lia|].
  pose proof (weight_nonneg c). lia.
Qed.

Lemma magnitude_app (xs ys : list BudgetCategory) :
  magnitude (xs ++ ys) = magnitude xs + magnitude ys.
Proof. induction xs as [|x xs IH]; simpl; [reflexivity|]. rewrite IH. lia. Qed.

Lemma magnitude_Permutation (xs ys : list BudgetCategory) :
  Permutation xs ys -> magnitude xs = magnitude ys.
Proof. induction 1; simpl; lia. Qed.

Lemma magnitude_take (n : nat) (categories : list BudgetCategory) :
  magnitude (take n categories) <= magnitude categories.
Proof.
  rewrite <- (take_drop n categories) at 2. rewrite magnitude_app.
  pose proof (magnitude_nonneg (drop n categories)). lia.
Qed.

Lemma weight_bounds (c : BudgetCategory) : Z.abs (total_units [c]) <= weight c.
Proof.
  induction c as [i n a col subs IH] using BudgetCategory_forall_ind.
  rewrite total_units_one. cbn [weight]. destruct (non_empty subs); [|lia].
  induction IH as [|x l Hx _ IHl]; [rewrite total_units_nil; simpl; lia|].
  rewrite total_units_cons. simpl. lia.
Qed.

Lemma magnitude_bounds (categories : list BudgetCategory) :
  Z.abs (total_units categories) <= magnitude categories.
Proof.
  induction categories as [|c l IH]; [rewrite total_units_nil; simpl; lia|].
  rewrite total_units_cons. simpl. pose proof (weight_bounds c). lia.
Qed.

(** X1.  On amounts that are whole numbers, or absent, [null] or [NaN],
    and whose absolute values sum to at most [2^53], the server's total
    is never [NaN]: [calculateTotalAllocated] returns a whole number
    within [2^53] of zero, and so is the running total of its loop after
    any number of categories. *)
Theorem server_total_is_a_finite_number (categories : list BudgetCategory) :
  magnitude categories <= exact_range ->
  (exists z : Z, calculateTotalAllocated categories = Fin z
                 /\ Z.abs z <= exact_range)
  /\ forall n : nat,
       exists z : Z, calculateTotalAllocated (take n categories) = Fin z
                     /\ Z.abs z <= exact_range.
Proof.
  intros H. split.
  - exists (total_units categories). split; [apply total_units_spec|].
    pose proof (magnitude_bounds categories). lia.
  - intros n. exists (total_units (take n categories)).
    split; [apply total_units_spec|].
    pose proof (magnitude_bounds (take n categories)).
    pose proof (magnitude_take n categories). lia.
Qed.

Lemma server_total_is_a_finite_number_witness :
  magnitude
    [leaf "a" AUndefined; leaf "b" (ANumber NaN); leaf "c" ANull;
     leaf "d" (ANumber (Fin (-7)))] <= exact_range
  /\ exists z : Z,
      calculateTotalAllocated
        [leaf "a" AUndefined; leaf "b" (ANumber NaN); leaf "c" ANull;
         leaf "d" (ANumber (Fin (-7)))] = Fin z
      /\ Z.abs z <= exact_range.
Proof.
  assert (H : magnitude
                [leaf "a" AUndefined; leaf "b" (ANumber NaN); leaf "c" ANull;
                 leaf "d" (ANumber (Fin (-7)))] <= exact_range)
    by (vm_compute; discriminate).
  split; [exact H|].
  exact (proj1 (server_total_is_a_finite_number _ H)).
Defined.

(** X2.  On amounts that are whole numbers whose absolute values sum to
    at most [2^53], the order of the categories in the list does not
    change the server's total. *)
Theorem server_total_ignores_order (xs ys : list BudgetCategory) :
  magnitude xs <= exact_range ->
  Permutation xs ys ->
  magnitude ys <= exact_range
  /\ calculateTotalAllocated xs = calculateTotalAllocated ys.
Proof.
  intros Hm H. split; [by rewrite <- (magnitude_Permutation _ _ H)|].
  rewrite !calculateTotalAllocated_as_sum.
  by apply sum_numbers_Permutation, Permutation_map.
Qed.

Lemma server_total_ignores_order_witness :
  magnitude trip_categories <= exact_range
  /\ Permutation trip_categories (reverse trip_categories)
  /\ calculateTotalAllocated (reverse trip_categories) = Fin 700.
Proof.
  assert (Hm : magnitude trip_categories <= exact_range)
    by (vm_compute; discriminate).
  assert (H : Permutation trip_categories (reverse trip_categories))
    by apply perm_swap.
  split; [exact Hm|]. split; [exact H|].
  rewrite <- (proj2 (server_total_ignores_order _ _ Hm H)). reflexivity.
Defined.

(** X3.  On amounts that are whole numbers whose absolute values sum to
    at most [2^53], the server's total of two lists put together is the
    sum of their totals, and each of the two lies in the same range. *)
Theorem server_total_of_append (xs ys : list BudgetCategory) :
  magnitude (xs ++ ys) <= exact_range ->
  magnitude xs <= exact_range
  /\ magnitude ys <= exact_range
  /\ calculateTotalAllocated (xs ++ ys)
     = add (calculateTotalAllocated xs) (calculateTotalAllocated ys).
Proof.
  rewrite magnitude_app. intros H.
  pose proof (magnitude_nonneg xs). pose proof (magnitude_nonneg ys).
  split; [lia|]. split; [lia|]. apply calculateTotalAllocated_app.
Qed.

Lemma server_total_of_append_witness :
  magnitude (trip_categories ++ parent_with_amount) <= exact_range
  /\ calculateTotalAllocated (trip_categories ++ parent_with_amount)
     = add (Fin 700) (Fin 30).
Proof.
  assert (H : magnitude (trip_categories ++ parent_with_amount) <= exact_range)
    by (vm_compute; discriminate).
  split; [exact H|].
  exact (proj2 (proj2 (server_total_of_append _ _ H))).
Defined.

(** X4.  On amounts that are whole numbers whose absolute values sum to
    at most [2^53], a category that has subcategories counts for the
    server's total exactly as if its subcategories stood in its place,
    wherever it stands in the list; its own amount, name and id play no
    part. *)
Theorem parent_counts_as_its_subcategories (id name : string)
    (amount : JsAmount) (color : option string)
    (before subs after : list BudgetCategory) :
  magnitude (before ++ Category id name amount color subs :: after)
  <= exact_range ->
  non_empty subs = true ->
  magnitude (before ++ subs ++ after) <= exact_range
  /\ calculateTotalAllocated
       (before ++ Category id name amount color subs :: after)
     = calculateTotalAllocated (before ++ subs ++ after).
Proof.
  intros Hm H.
  change (Category id name amount color subs :: after)
    with ([Category id name amount color subs] ++ after)%list in *.
  split.
  - revert Hm. rewrite !magnitude_app. cbn [magnitude fold_right weight].
    rewrite H. fold (magnitude subs). lia.
  - rewrite !calculateTotalAllocated_app, calculateTotalAllocated_one.
    by rewrite allocated_by_parent.
Qed.

Lemma parent_counts_as_its_subcategories_witness :
  magnitude trip_categories <= exact_range
  /\ non_empty [leaf "Deposit" (ANumber (Fin 150));
                leaf "Balance" (ANumber (Fin 150))] = true
  /\ calculateTotalAllocated trip_categories
     = calculateTotalAllocated
         [leaf "Flights" (ANumber (Fin 400));
          leaf "Deposit" (ANumber (Fin 150));
          leaf "Balance" (ANumber (Fin 150))].
Proof.
  assert (Hm : magnitude trip_categories <= exact_range)
    by (vm_compute; discriminate).
  split; [exact Hm|]. split; [reflexivity|].
  exact (proj2 (parent_counts_as_its_subcategories "Hotel" "Hotel"
                  (ANumber (Fin 300)) None
                  [leaf "Flights" (ANumber (Fin 400))]
                  [leaf "Deposit" (ANumber (Fin 150));
                   leaf "Balance" (ANumber (Fin 150))]
                  [] Hm eq_refl)).
Defined.

Lemma sum_numbers_add {A} (f g : A -> number) (l : list A) :
  sum_numbers (map (fun x => add (f x) (g x)) l)
  = add (sum_numbers (map f l)) (sum_numbers (map g l)).
Proof.
  induction l as [|x l IH]; simpl; [reflexivity|].
  rewrite IH, <- !add_assoc. f_equal.
  rewrite !add_assoc. f_equal. apply add_comm.
Qed.

Lemma all_amounts_split (c : BudgetCategory) :
  all_amounts c = add (allocated_by c) (parent_amounts c).
Proof.
  induction c as [i n a col subs IH] using BudgetCategory_forall_ind.
  cbn [all_amounts allocated_by parent_amounts].
  rewrite (map_ext_Forall _ _ IH), sum_numbers_add.
  destruct subs as [|s rest]; cbn [non_empty].
  - simpl. by rewrite !add_zero_r.
  - rewrite loop_is_sum, add_zero_l.
    rewrite !add_assoc. f_equal. apply add_comm.
Qed.

(** X5.  The total the budget form shows under a category with
    subcategories, its module-level [calculateTotalAllocated], is the
    server's total on every tree. *)
Theorem form_total_allocated_is_server_total
    (categories : list BudgetCategory) :
  BudgetForm.calculateTotalAllocated categories
  = calculateTotalAllocated categories.
Proof.
  apply loop_ext, Forall_forall. intros c _.
  apply form_reduce_step_allocated_by.
Qed.

(** X6.  The total behind the form's remaining amount, [calculateTotal]
    of the memo, is the server's total on every tree whose counted
    amounts are finite numbers or [null]. *)
Theorem form_memo_total_is_server_total (categories : list BudgetCategory) :
  Forall plain_amounts categories ->
  BudgetForm.calculateTotal categories = calculateTotalAllocated categories.
Proof.
  intros H. apply loop_ext. eapply Forall_impl; [exact H|].
  intros c Hc. apply form_subTotal_allocated_by, Hc.
Qed.

Lemma form_memo_total_is_server_total_witness :
  Forall plain_amounts trip_categories
  /\ BudgetForm.calculateTotal trip_categories = Fin 700.
Proof.
  assert (H : Forall plain_amounts trip_categories).
  { repeat constructor. }
  split; [exact H|].
  rewrite (form_memo_total_is_server_total _ H). reflexivity.
Defined.

Lemma weight_le_full (c : BudgetCategory) : weight c <= full_weight c.
Proof.
  induction c as [i n a col subs IH] using BudgetCategory_forall_ind.
  cbn [weight full_weight]. destruct subs as [|s rest]; cbn [non_empty].
  - simpl. lia.
  - assert (fold_right (fun x rest => weight x + rest) 0 (s :: rest)
            <= fold_right (fun x rest => full_weight x + rest) 0 (s :: rest)).
    { induction IH as [|x l Hx _ IHl]; simpl; lia. }
    lia.
Qed.

Lemma magnitude_le_full (categories : list BudgetCategory) :
  magnitude categories <= full_magnitude categories.
Proof.
  induction categories as [|c l IH]; simpl; [lia|].
  pose proof (weight_le_full c). lia.
Qed.

(** X7.  On amounts that are whole numbers and whose absolute values,
    those of the categories with subcategories included, sum to at most
    [2^53], the dashboard's total is the server's total plus the own
    amounts of all categories that have subcategories. *)
Theorem dashboard_total_is_server_total_plus_parents
    (categories : list BudgetCategory) :
  full_magnitude categories <= exact_range ->
  magnitude categories <= exact_range
  /\ BudgetDetails.calculateTotal categories
     = add (calculateTotalAllocated categories)
           (sum_numbers (map parent_amounts categories)).
Proof.
  intros Hm. split; [pose proof (magnitude_le_full categories); lia|].
  rewrite dashboard_calculateTotal_sum, calculateTotalAllocated_as_sum.
  rewrite <- sum_numbers_add. f_equal.
  apply map_ext_Forall, Forall_forall. intros c _. apply all_amounts_split.
Qed.

Lemma dashboard_total_is_server_total_plus_parents_witness :
  full_magnitude parent_with_amount <= exact_range
  /\ BudgetDetails.calculateTotal parent_with_amount
     = add (Fin 30) (Fin 9999).
Proof.
  assert (H : full_magnitude parent_with_amount <= exact_range)
    by (vm_compute; discriminate).
  split; [exact H|].
  exact (proj2 (dashboard_total_is_server_total_plus_parents _ H)).
Defined.

(** X8.  The detail page's [sumJsonCategories] and the dashboard's
    [calculateTotal] give the same total on every tree. *)
Theorem detail_total_is_dashboard_total (categories : list BudgetCategory) :
  BudgetDetail.sumJsonCategories categories
  = BudgetDetails.calculateTotal categories.
Proof. apply sumJsonCategories_dashboard. Qed.

(* ===================================================================== *)
(** ** The edits of the budget form *)
(* ===================================================================== *)

Lemma non_empty_map {A B} (f : A -> B) (l : list A) :
  non_empty (map f l) = non_empty l.
Proof. by destruct l. Qed.

Lemma or_zero_json (a : JsAmount) : or_zero (json_amount a) = or_zero a.
Proof. by destruct a as [| |[|z]]. Qed.

Lemma allocated_by_json (c : BudgetCategory) :
  allocated_by (json_category c) = allocated_by c.
Proof.
  induction c as [i n a col subs IH] using BudgetCategory_forall_ind.
  cbn [json_category allocated_by]. rewrite non_empty_map.
  destruct (non_empty subs); [|apply or_zero_json].
  rewrite !loop_is_sum. f_equal. rewrite map_map.
  f_equal. by apply map_ext_Forall.
Qed.

Lemma json_category_idem (c : BudgetCategory) :
  json_category (json_category c) = json_category c.
Proof.
  induction c as [i n a col subs IH] using BudgetCategory_forall_ind.
  cbn [json_category]. f_equal.
  - by destruct a as [| |[|z]].
  - rewrite map_map. by apply map_ext_Forall.
Qed.

Lemma json_copy_idem (categories : list BudgetCategory) :
  json_copy (json_copy categories) = json_copy categories.
Proof.
  unfold json_copy. rewrite map_map. apply map_ext. intros c.
  apply json_category_idem.
Qed.

Lemma calculateTotalAllocated_json (categories : list BudgetCategory) :
  calculateTotalAllocated (json_copy categories)
  = calculateTotalAllocated categories.
Proof.
  rewrite !calculateTotalAllocated_as_sum. unfold json_copy.
  rewrite map_map. f_equal. apply map_ext. intros c. apply allocated_by_json.
Qed.

Lemma lookup_split (l : list BudgetCategory) (i : nat) (c : BudgetCategory) :
  l !! i = Some c ->
  exists l1 l2, l = (l1 ++ c :: l2)%list /\ length l1 = i.
Proof.
  intros H. exists (take i l), (drop (S i) l). split.
  - symmetry. by apply take_drop_middle.
  - rewrite length_take. apply lookup_lt_Some in H. lia.
Qed.

Lemma total_units_insert (l : list BudgetCategory) (i : nat)
    (c c' : BudgetCategory) :
  l !! i = Some c ->
  total_units (<[i := c']> l) = total_units l - total_units [c] + total_units [c'].
Proof.
  intros H. destruct (lookup_split l i c H) as (l1 & l2 & -> & <-).
  rewrite insert_app_r_alt by lia. rewrite Nat.sub_diag. cbn [insert list_insert].
  rewrite !total_units_app, !(total_units_cons _ l2). lia.
Qed.

Lemma total_units_delete (l : list BudgetCategory) (i : nat)
    (c : BudgetCategory) :
  l !! i = Some c ->
  total_units (delete i l) = total_units l - total_units [c].
Proof.
  intros H. destruct (lookup_split l i c H) as (l1 & l2 & -> & <-).
  rewrite delete_middle.
  rewrite !total_units_app, !(total_units_cons _ l2). lia.
Qed.

Lemma total_units_json (categories : list BudgetCategory) :
  total_units (json_copy categories) = total_units categories.
Proof. unfold total_units. by rewrite calculateTotalAllocated_json. Qed.

Local Open Scope list_scope.

Lemma lookup_map {A B} (f : A -> B) (l : list A) (i : nat) :
  map f l !! i = f <$> l !! i.
Proof. apply (list_lookup_fmap f l i). Qed.

Lemma non_empty_insert {A} (l : list A) (i : nat) (x : A) :
  non_empty (<[i := x]> l) = non_empty l.
Proof. by destruct l, i. Qed.

Lemma non_empty_lookup {A} (l : list A) (i : nat) (x : A) :
  l !! i = Some x -> non_empty l = true.
Proof. by destruct l. Qed.

Lemma into_Some (i : nat) k (current current' : list BudgetCategory) :
  into i k current = Some current' ->
  exists id n a col subs subs',
    current !! i = Some (Category id n a col subs)
    /\ k subs = Some subs'
    /\ current' = <[i := Category id n a col subs']> current.
Proof.
  unfold into. destruct (current !! i) as [[id n a col subs]|]; [|done].
  destruct (k subs) as [subs'|] eqn:E; simpl; [|done].
  intros [= <-]. by exists id, n, a, col, subs, subs'.
Qed.

Lemma category_at_cons (i j : nat) (rest : list nat)
    (categories : list BudgetCategory) :
  category_at (i :: j :: rest) categories
  = c ← categories !! i; category_at (j :: rest) (subcategories c).
Proof. simpl. by destruct (categories !! i). Qed.

Lemma subcategories_json (c : BudgetCategory) :
  subcategories (json_category c) = json_copy (subcategories c).
Proof. by destruct c. Qed.

Lemma category_at_json (path : list nat) (categories : list BudgetCategory) :
  category_at path (json_copy categories)
  = json_category <$> category_at path categories.
Proof.
  revert categories. induction path as [|i [|j rest] IH]; intros categories.
  - reflexivity.
  - apply lookup_map.
  - rewrite !category_at_cons. unfold json_copy at 1. rewrite lookup_map.
    destruct (categories !! i) as [c|]; simpl; [|done].
    rewrite subcategories_json. apply IH.
Qed.

(** Pushing a category that counts for nothing: only the category pushed
    to can change what it counts for. *)
Lemma push_at_total (path : list nat) (x : BudgetCategory)
    (current current' : list BudgetCategory) :
  total_units [x] = 0 ->
  push_at path x current = Some current' ->
  non_empty current' = true
  /\ total_units current'
     = total_units current
       - match path, category_at path current with
         | _ :: _, Some c =>
             if non_empty (subcategories c) then 0 else units_of (own_amount c)
         | _, _ => 0
         end.
Proof.
  intros Hx. revert current current'.
  induction path as [|i rest IH]; intros current current' H.
  - injection H as <-. split; [by destruct current|].
    rewrite total_units_app, Hx. lia.
  - apply into_Some in H
      as (id & n & a & col & subs & subs' & Hi & Hpush & ->).
    destruct (IH _ _ Hpush) as [Hne Htotal].
    split; [rewrite non_empty_insert; by eapply non_empty_lookup|].
    rewrite (total_units_insert _ _ _ _ Hi), !total_units_one, Hne, Htotal.
    destruct rest as [|j rest].
    + cbn [category_at]. rewrite Hi. cbn [subcategories cat_amount own_amount].
      unfold own_amount. cbn [cat_amount].
      destruct subs; cbn [non_empty]; [rewrite total_units_nil|]; lia.
    + rewrite category_at_cons, Hi. cbn [mbind option_bind subcategories].
      assert (Hs : non_empty subs = true).
      { apply into_Some in Hpush as (? & ? & ? & ? & ? & ? & Hj & _).
        by eapply non_empty_lookup. }
      rewrite Hs. lia.
Qed.

Lemma push_at_is_Some (path : list nat) (x : BudgetCategory)
    (current : list BudgetCategory) (c : BudgetCategory) :
  category_at path current = Some c ->
  exists current', push_at path x current = Some current'.
Proof.
  revert current. induction path as [|i [|j rest] IH]; intros current H.
  - discriminate.
  - cbn in H. cbn [push_at]. unfold into. rewrite H. destruct c. eauto.
  - rewrite category_at_cons in H.
    destruct (current !! i) as [[id n a col subs]|] eqn:Hi; [|done].
    cbn in H. destruct (IH _ H) as [subs' Hs].
    cbn [push_at] in *. unfold into at 1. rewrite Hi, Hs. eauto.
Qed.

Lemma push_at_is_None (path : list nat) (x : BudgetCategory)
    (current : list BudgetCategory) :
  path <> [] -> category_at path current = None ->
  push_at path x current = None.
Proof.
  revert current. induction path as [|i [|j rest] IH]; intros current Hp H.
  - done.
  - cbn in H. cbn [push_at]. unfold into. by rewrite H.
  - rewrite category_at_cons in H. cbn [push_at]. unfold into at 1.
    destruct (current !! i) as [[id n a col subs]|] eqn:Hi; [|done].
    cbn in H. cbn [push_at] in IH. rewrite (IH _ ltac:(done) H). done.
Qed.

Lemma slots_json (path : list nat) (categories : list BudgetCategory) :
  slots path (json_copy categories) = slots path categories.
Proof.
  revert categories. induction path as [|i rest IH]; intros categories.
  - apply length_map.
  - cbn [slots]. unfold json_copy at 1. rewrite lookup_map.
    destruct (categories !! i) as [c|]; simpl; [|done].
    rewrite subcategories_json. apply IH.
Qed.

Lemma json_copy_insert (l : list BudgetCategory) (i : nat) (c : BudgetCategory) :
  json_copy (<[i := c]> l) = <[i := json_category c]> (json_copy l).
Proof. apply (list_fmap_insert json_category l i c). Qed.

(** What [addCategory] builds from a copy is a copy. *)
Lemma push_at_json (path : list nat) (x : BudgetCategory)
    (current current' : list BudgetCategory) :
  json_category x = x -> json_copy current = current ->
  push_at path x current = Some current' ->
  json_copy current' = current'.
Proof.
  intros Hx. revert current current'.
  induction path as [|i rest IH]; intros current current' Hc H.
  - injection H as <-. unfold json_copy in *. rewrite map_app, Hc. simpl.
    by rewrite Hx.
  - apply into_Some in H
      as (id & n & a & col & subs & subs' & Hi & Hpush & ->).
    assert (H' := f_equal (.!! i) Hc). cbn beta in H'.
    unfold json_copy in H'. rewrite lookup_map, Hi in H'.
    cbn [fmap option_fmap option_map json_category] in H'.
    injection H' as Ha Hs.
    rewrite json_copy_insert, Hc. cbn [json_category]. rewrite Ha.
    fold (json_copy subs'). by rewrite (IH _ _ Hs Hpush).
Qed.

Lemma splice_at_cons (i j : nat) (rest : list nat)
    (current : list BudgetCategory) :
  splice_at (i :: j :: rest) current
  = into i (splice_at (j :: rest)) current.
Proof. reflexivity. Qed.

(** Removing the category that was just pushed gives back the list. *)
Lemma splice_at_push_at (path : list nat) (x : BudgetCategory)
    (current current' : list BudgetCategory) :
  push_at path x current = Some current' ->
  splice_at (path ++ [slots path current]) current' = Some current.
Proof.
  revert current current'.
  induction path as [|i rest IH]; intros current current' H.
  - injection H as <-. cbn [app slots splice_at].
    by rewrite delete_middle, app_nil_r.
  - apply into_Some in H
      as (id & n & a & col & subs & subs' & Hi & Hpush & ->).
    cbn [slots]. rewrite Hi. cbn [subcategories].
    specialize (IH _ _ Hpush).
    change ((i :: rest) ++ [slots rest subs])%list
      with (i :: (rest ++ [slots rest subs]))%list.
    destruct (rest ++ [slots rest subs])%list as [|j r] eqn:E.
    { by destruct rest. }
    rewrite splice_at_cons. unfold into.
    rewrite list_lookup_insert_eq by (by eapply lookup_lt_Some).
    rewrite IH. cbn [mbind option_bind].
    by rewrite list_insert_insert_eq, list_insert_id.
Qed.

Lemma change_at_cons (i j : nat) (rest : list nat) (f : Field)
    (current : list BudgetCategory) :
  change_at (i :: j :: rest) f current
  = into i (change_at (j :: rest) f) current.
Proof. reflexivity. Qed.

Lemma category_at_non_empty (path : list nat) (l : list BudgetCategory)
    (c : BudgetCategory) :
  category_at path l = Some c -> non_empty l = true.
Proof.
  destruct path as [|i [|j rest]]; [done| |].
  - apply non_empty_lookup.
  - rewrite category_at_cons. destruct (l !! i) eqn:E; [|done].
    intros _. by eapply non_empty_lookup.
Qed.

Lemma change_at_Some (path : list nat) (f : Field)
    (current : list BudgetCategory) (c : BudgetCategory) :
  category_at path current = Some c ->
  exists current',
    change_at path f current = Some current'
    /\ category_at path current' = Some (set_field f c)
    /\ total_units current'
       = total_units current - total_units [c] + total_units [set_field f c].
Proof.
  revert current. induction path as [|i [|j rest] IH]; intros current H.
  - discriminate.
  - cbn in H. exists (<[i := set_field f c]> current). cbn. rewrite H.
    split; [done|]. split.
    + apply list_lookup_insert_eq. by eapply lookup_lt_Some.
    + by apply total_units_insert.
  - rewrite category_at_cons in H.
    destruct (current !! i) as [[id n a col subs]|] eqn:Hi; [|done].
    cbn [mbind option_bind subcategories] in H.
    destruct (IH _ H) as (subs' & Hch & Hat & Htotal).
    exists (<[i := Category id n a col subs']> current).
    rewrite change_at_cons. unfold into. rewrite Hi, Hch. split; [done|].
    split.
    + rewrite category_at_cons.
      rewrite list_lookup_insert_eq by (by eapply lookup_lt_Some). exact Hat.
    + rewrite (total_units_insert _ _ _ _ Hi), !total_units_one.
      rewrite (category_at_non_empty _ _ _ H), (category_at_non_empty _ _ _ Hat).
      lia.
Qed.

Lemma change_at_None (path : list nat) (f : Field)
    (current : list BudgetCategory) :
  category_at path current = None -> change_at path f current = None.
Proof.
  revert current. induction path as [|i [|j rest] IH]; intros current H.
  - done.
  - cbn in *. by rewrite H.
  - rewrite category_at_cons in H. rewrite change_at_cons. unfold into.
    destruct (current !! i) as [[id n a col subs]|] eqn:Hi; [|done].
    cbn [mbind option_bind subcategories] in H. by rewrite (IH _ H).
Qed.

Lemma own_amount_units (c : BudgetCategory) :
  own_amount c = Fin (units_of (own_amount c)).
Proof.
  unfold own_amount. pose proof (or_zero_finite (cat_amount c)).
  by destruct (or_zero (cat_amount c)).
Qed.

Lemma calculateTotalAllocated_units (xs ys : list BudgetCategory) (d : Z) :
  total_units xs = total_units ys - d ->
  add (calculateTotalAllocated xs) (Fin d) = calculateTotalAllocated ys.
Proof.
  intros H. rewrite !total_units_spec, H. simpl. f_equal. lia.
Qed.

(** The magnitude of a tree under the edits of the form. *)
Lemma weight_unfold i n a col (subs : list BudgetCategory) :
  weight (Category i n a col subs)
  = if non_empty subs then magnitude subs else Z.abs (units_of (or_zero a)).
Proof. reflexivity. Qed.

Lemma weight_json (c : BudgetCategory) : weight (json_category c) = weight c.
Proof.
  induction c as [i n a col subs IH] using BudgetCategory_forall_ind.
  cbn [json_category]. rewrite !weight_unfold, non_empty_map, or_zero_json.
  destruct (non_empty subs); [|reflexivity].
  induction IH as [|x l Hx _ IHl]; simpl; [reflexivity|].
  rewrite Hx. f_equal. apply IHl.
Qed.

Lemma magnitude_json (categories : list BudgetCategory) :
  magnitude (json_copy categories) = magnitude categories.
Proof.
  induction categories as [|c l IH]; simpl; [reflexivity|].
  rewrite weight_json. f_equal. apply IH.
Qed.

Lemma magnitude_insert (l : list BudgetCategory) (i : nat)
    (c c' : BudgetCategory) :
  l !! i = Some c ->
  magnitude (<[i := c']> l) = magnitude l - weight c + weight c'.
Proof.
  intros H. destruct (lookup_split l i c H) as (l1 & l2 & -> & <-).
  rewrite insert_app_r_alt by lia. rewrite Nat.sub_diag. cbn [insert list_insert].
  rewrite !magnitude_app. simpl. lia.
Qed.

Lemma magnitude_delete (l : list BudgetCategory) (i : nat)
    (c : BudgetCategory) :
  l !! i = Some c -> magnitude (delete i l) = magnitude l - weight c.
Proof.
  intros H. destruct (lookup_split l i c H) as (l1 & l2 & -> & <-).
  rewrite delete_middle, !magnitude_app. simpl. lia.
Qed.

Lemma magnitude_empty (l : list BudgetCategory) :
  non_empty l = false -> magnitude l = 0.
Proof. by destruct l. Qed.

Lemma push_at_magnitude (path : list nat) (x : BudgetCategory)
    (current current' : list BudgetCategory) :
  weight x = 0 ->
  push_at path x current = Some current' ->
  non_empty current' = true /\ magnitude current' <= magnitude current.
Proof.
  intros Hx. revert current current'.
  induction path as [|i rest IH]; intros current current' H.
  - injection H as <-. split; [by destruct current|].
    rewrite magnitude_app. simpl. lia.
  - apply into_Some in H
      as (id & n & a & col & subs & subs' & Hi & Hpush & ->).
    destruct (IH _ _ Hpush) as [Hne Hm].
    split; [rewrite non_empty_insert; by eapply non_empty_lookup|].
    rewrite (magnitude_insert _ _ _ _ Hi), !weight_unfold, Hne.
    destruct (non_empty subs) eqn:E; [lia|].
    rewrite (magnitude_empty _ E) in Hm. lia.
Qed.

Lemma set_field_weight (f : Field) (c : BudgetCategory) :
  weight (set_field f c) <= weight c + field_weight f.
Proof.
  pose proof (weight_nonneg c) as H. destruct c as [i n a col subs].
  destruct f as [v|v]; cbn [set_field field_weight]; rewrite !weight_unfold in *;
    destruct (non_empty subs); lia.
Qed.

Lemma change_at_magnitude (path : list nat) (f : Field)
    (current current' : list BudgetCategory) (c : BudgetCategory) :
  category_at path current = Some c ->
  change_at path f current = Some current' ->
  magnitude current' <= magnitude current + field_weight f.
Proof.
  revert current current'.
  induction path as [|i [|j rest] IH]; intros current current' Hc H.
  - discriminate.
  - cbn in Hc. cbn in H. rewrite Hc in H. injection H as <-.
    rewrite (magnitude_insert _ _ _ _ Hc).
    pose proof (set_field_weight f c). lia.
  - rewrite category_at_cons in Hc. rewrite change_at_cons in H.
    apply into_Some in H
      as (id & n & a & col & subs & subs' & Hi & Hch & ->).
    rewrite Hi in Hc. cbn [mbind option_bind subcategories] in Hc.
    pose proof (IH _ _ Hc Hch) as Hm.
    destruct (change_at_Some (j :: rest) f _ _ Hc) as (x & Hx & Hat & _).
    rewrite Hch in Hx. injection Hx as <-.
    rewrite (magnitude_insert _ _ _ _ Hi), !weight_unfold.
    rewrite (category_at_non_empty _ _ _ Hc), (category_at_non_empty _ _ _ Hat).
    lia.
Qed.

(** X9.  With the empty path [addCategory] appends a category of amount
    0 to the copy of the root list, and the server's total stays what it
    was. *)
Theorem add_root_category_keeps_total (uuid : string)
    (categories : list BudgetCategory) :
  addCategory uuid [] categories
  = Some (json_copy categories ++ [Category uuid "" (ANumber (Fin 0)) None []])
  /\ calculateTotalAllocated
       (json_copy categories ++ [Category uuid "" (ANumber (Fin 0)) None []])
     = calculateTotalAllocated categories.
Proof.
  split; [reflexivity|].
  rewrite calculateTotalAllocated_app, calculateTotalAllocated_json.
  apply add_zero_r.
Qed.

(** X10.  [addCategory] under the category a path leads to succeeds.  On
    amounts that are whole numbers whose absolute values sum to at most
    [2^53], the tree it builds lies in the same range; if the category
    already had subcategories the server's total is unchanged, and if it
    had none, its own amount drops out of the total. *)
Theorem add_subcategory_drops_own_amount (uuid : string) (path : list nat)
    (categories : list BudgetCategory) (c : BudgetCategory) :
  magnitude categories <= exact_range ->
  category_at path categories = Some c ->
  exists categories',
    addCategory uuid path categories = Some categories'
    /\ magnitude categories' <= exact_range
    /\ add (calculateTotalAllocated categories')
           (if non_empty (subcategories c) then Fin 0 else own_amount c)
       = calculateTotalAllocated categories.
Proof.
  intros Hm Hc. unfold addCategory.
  assert (Hj : category_at path (json_copy categories)
               = Some (json_category c)).
  { by rewrite category_at_json, Hc. }
  destruct (push_at_is_Some path (Category uuid "" (ANumber (Fin 0)) None [])
              _ _ Hj) as [categories' Hpush].
  exists categories'. split; [exact Hpush|]. split.
  { destruct (push_at_magnitude _ (Category uuid "" (ANumber (Fin 0)) None [])
                _ _ eq_refl Hpush) as [_ Hle].
    rewrite magnitude_json in Hle. lia. }
  destruct (push_at_total _ (Category uuid "" (ANumber (Fin 0)) None []) _ _
              eq_refl Hpush) as [_ Ht].
  destruct path as [|i rest]; [discriminate|].
  rewrite Hj, total_units_json in Ht.
  rewrite subcategories_json in Ht. unfold json_copy in Ht.
  rewrite non_empty_map in Ht.
  assert (Ho : own_amount (json_category c) = own_amount c).
  { destruct c. apply or_zero_json. }
  rewrite Ho in Ht.
  destruct (non_empty (subcategories c)).
  - by apply calculateTotalAllocated_units.
  - rewrite own_amount_units. by apply calculateTotalAllocated_units.
Qed.

Lemma add_subcategory_drops_own_amount_witness :
  magnitude trip_categories <= exact_range
  /\ category_at [0%nat] trip_categories
     = Some (leaf "Flights" (ANumber (Fin 400)))
  /\ exists categories',
      addCategory "new" [0%nat] trip_categories = Some categories'
      /\ magnitude categories' <= exact_range
      /\ add (calculateTotalAllocated categories') (Fin 400) = Fin 700.
Proof.
  assert (Hm : magnitude trip_categories <= exact_range)
    by (vm_compute; discriminate).
  split; [exact Hm|]. split; [reflexivity|].
  exact (add_subcategory_drops_own_amount "new" [0%nat] trip_categories
           (leaf "Flights" (ANumber (Fin 400))) Hm eq_refl).
Defined.

(** X11.  Removing the category that [addCategory] has just added, at
    the path of the addition followed by the index it was given, brings
    back the copy of the tree the addition started from. *)
Theorem remove_undoes_add (uuid : string) (path : list nat)
    (categories categories' : list BudgetCategory) :
  addCategory uuid path categories = Some categories' ->
  removeCategory (path ++ [slots path categories]) categories'
  = Some (json_copy categories).
Proof.
  unfold addCategory, removeCategory. intros H.
  rewrite (push_at_json _ (Category uuid "" (ANumber (Fin 0)) None []) _ _
             eq_refl (json_copy_idem categories) H).
  rewrite <- slots_json. exact (splice_at_push_at _ _ _ _ H).
Qed.

Lemma remove_undoes_add_witness :
  addCategory "new" [1%nat] trip_categories
  = Some [ leaf "Flights" (ANumber (Fin 400));
           parent "Hotel" (ANumber (Fin 300))
             [ leaf "Deposit" (ANumber (Fin 150));
               leaf "Balance" (ANumber (Fin 150));
               Category "new" "" (ANumber (Fin 0)) None [] ] ]
  /\ removeCategory [1%nat; 2%nat]
       [ leaf "Flights" (ANumber (Fin 400));
         parent "Hotel" (ANumber (Fin 300))
           [ leaf "Deposit" (ANumber (Fin 150));
             leaf "Balance" (ANumber (Fin 150));
             Category "new" "" (ANumber (Fin 0)) None [] ] ]
     = Some trip_categories.
Proof.
  split; [reflexivity|].
  exact (remove_undoes_add "new" [1%nat] trip_categories _ eq_refl).
Defined.

(** X12.  [handleCategoryChange] throws exactly when its path leads to
    no category, so always for the empty path; [addCategory] throws
    exactly when its path is not empty and leads to no category.  In both
    cases the form keeps the tree it had. *)
Theorem edits_throw_off_the_tree (uuid : string) (path : list nat) (f : Field)
    (categories : list BudgetCategory) :
  (handleCategoryChange path f categories = None
   <-> category_at path categories = None)
  /\ (addCategory uuid path categories = None
      <-> path <> [] /\ category_at path categories = None).
Proof.
  assert (Hj : category_at path (json_copy categories)
               = json_category <$> category_at path categories)
    by apply category_at_json.
  split; split.
  - intros H. destruct (category_at path categories) as [c|] eqn:Hc; [|done].
    destruct (change_at_Some path f _ _ Hj) as (x & Hx & _).
    unfold handleCategoryChange in H. congruence.
  - intros H. rewrite H in Hj. by apply change_at_None.
  - intros H. destruct path as [|i rest]; [discriminate|]. split; [done|].
    destruct (category_at (i :: rest) categories) as [c|] eqn:Hc; [|done].
    destruct (push_at_is_Some (i :: rest)
                (Category uuid "" (ANumber (Fin 0)) None []) _ _ Hj)
      as (x & Hx).
    unfold addCategory in H. congruence.
  - intros [Hp H]. rewrite H in Hj. by apply push_at_is_None.
Qed.

(** X13.  When its path leads to a category, [handleCategoryChange]
    succeeds and the path then leads to the copy of that category with
    the field set.  On amounts that are whole numbers whose absolute
    values, that of a new amount included, sum to at most [2^53], the
    tree it builds lies in the same range; a new name never changes the
    server's total, and a new amount changes it only on a category
    without subcategories, where the old amount is replaced by the new
    one. *)
Theorem change_sets_the_field (path : list nat) (f : Field)
    (categories : list BudgetCategory) (c : BudgetCategory) :
  magnitude categories + field_weight f <= exact_range ->
  category_at path categories = Some c ->
  exists categories',
    handleCategoryChange path f categories = Some categories'
    /\ category_at path categories' = Some (set_field f (json_category c))
    /\ magnitude categories' <= exact_range
    /\ match f with
       | FName _ =>
           calculateTotalAllocated categories'
           = calculateTotalAllocated categories
       | FAmount value =>
           if non_empty (subcategories c)
           then calculateTotalAllocated categories'
                = calculateTotalAllocated categories
           else add (calculateTotalAllocated categories') (own_amount c)
                = add (calculateTotalAllocated categories)
                      (or_zero (ANumber value))
       end.
Proof.
  intros Hm Hc.
  assert (Hj : category_at path (json_copy categories)
               = Some (json_category c)).
  { by rewrite category_at_json, Hc. }
  destruct (change_at_Some path f _ _ Hj) as (categories' & Hch & Hat & Ht).
  exists categories'. split; [exact Hch|]. split; [exact Hat|]. split.
  { pose proof (change_at_magnitude _ _ _ _ _ Hj Hch) as Hle.
    rewrite magnitude_json in Hle. lia. }
  rewrite total_units_json in Ht. rewrite !total_units_spec.
  destruct c as [id n a col subs].
  cbn [json_category set_field subcategories] in *.
  destruct f as [value|value]; rewrite !total_units_one, non_empty_map in Ht.
  - f_equal. lia.
  - destruct (non_empty subs).
    + f_equal. lia.
    + rewrite or_zero_json in Ht.
      rewrite (own_amount_units (Category id n a col subs)).
      unfold own_amount. cbn [cat_amount].
      pose proof (or_zero_finite (ANumber value)) as Hv.
      destruct (or_zero (ANumber value)) as [|v]; [done|].
      simpl in *. f_equal. lia.
Qed.

Lemma change_sets_the_field_witness :
  magnitude trip_categories + field_weight (FAmount (Fin 200)) <= exact_range
  /\ category_at [1%nat; 0%nat] trip_categories
     = Some (leaf "Deposit" (ANumber (Fin 150)))
  /\ exists categories',
      handleCategoryChange [1%nat; 0%nat] (FAmount (Fin 200)) trip_categories
      = Some categories'
      /\ category_at [1%nat; 0%nat] categories'
         = Some (leaf "Deposit" (ANumber (Fin 200)))
      /\ magnitude categories' <= exact_range
      /\ add (calculateTotalAllocated categories') (Fin 150)
         = add (Fin 700) (Fin 200).
Proof.
  assert (Hm : magnitude trip_categories + field_weight (FAmount (Fin 200))
               <= exact_range)
    by (vm_compute; discriminate).
  split; [exact Hm|]. split; [reflexivity|].
  exact (change_sets_the_field [1%nat; 0%nat] (FAmount (Fin 200))
           trip_categories (leaf "Deposit" (ANumber (Fin 150))) Hm eq_refl).
Defined.

Lemma delete_past_the_end {A} (l : list A) (i : nat) :
  (length l <= i)%nat -> delete i l = l.
Proof.
  revert i. induction l as [|x l IH]; intros i H; [by destruct i|].
  destruct i as [|i]; simpl in *; [lia|]. f_equal. apply IH. lia.
Qed.

(** X14.  [removeCategory] with the empty path removes the first root
    category, and with a single index past the end of the root list it
    removes nothing; neither throws. *)
Theorem remove_outside_the_root_list (i : nat)
    (categories : list BudgetCategory) :
  (length categories <= i)%nat ->
  removeCategory [] categories = Some (drop 1 (json_copy categories))
  /\ removeCategory [i] categories = Some (json_copy categories).
Proof.
  intros H. split; [reflexivity|]. unfold removeCategory. cbn [splice_at].
  f_equal. apply delete_past_the_end. unfold json_copy.
  by rewrite length_map.
Qed.

Lemma remove_outside_the_root_list_witness :
  (length trip_categories <= 5)%nat
  /\ removeCategory [] trip_categories
     = Some [ parent "Hotel" (ANumber (Fin 300))
                [ leaf "Deposit" (ANumber (Fin 150));
                  leaf "Balance" (ANumber (Fin 150)) ] ]
  /\ removeCategory [5%nat] trip_categories = Some trip_categories.
Proof.
  assert (H : (length trip_categories <= 5)%nat) by (simpl; lia).
  split; [exact H|].
  exact (remove_outside_the_root_list 5 trip_categories H).
Defined.

(** X15.  Removing the root category at an index of the root list
    shortens the list by one.  On amounts that are whole numbers whose
    absolute values sum to at most [2^53], the list that is left lies in
    the same range and what the category counted for is taken out of the
    server's total. *)
Theorem remove_root_category_total (i : nat)
    (categories : list BudgetCategory) (c : BudgetCategory) :
  magnitude categories <= exact_range ->
  categories !! i = Some c ->
  exists categories',
    removeCategory [i] categories = Some categories'
    /\ length categories' = pred (length categories)
    /\ magnitude categories' <= exact_range
    /\ add (calculateTotalAllocated categories') (allocated_by c)
       = calculateTotalAllocated categories.
Proof.
  intros Hm H. exists (delete i (json_copy categories)).
  split; [reflexivity|].
  assert (Hj : json_copy categories !! i = Some (json_category c)).
  { unfold json_copy. by rewrite lookup_map, H. }
  split; [|split].
  - rewrite length_delete by eauto. unfold json_copy.
    rewrite length_map. lia.
  - rewrite (magnitude_delete _ _ _ Hj), magnitude_json.
    pose proof (weight_nonneg (json_category c)). lia.
  - pose proof (total_units_delete _ _ _ Hj) as Ht.
    rewrite total_units_json in Ht.
    assert (Hc : allocated_by c = Fin (total_units [json_category c])).
    { rewrite <- total_units_spec, calculateTotalAllocated_one.
      symmetry. apply allocated_by_json. }
    rewrite Hc. by apply calculateTotalAllocated_units.
Qed.

Lemma remove_root_category_total_witness :
  magnitude trip_categories <= exact_range
  /\ trip_categories !! 1%nat
  = Some (parent "Hotel" (ANumber (Fin 300))
            [ leaf "Deposit" (ANumber (Fin 150));
              leaf "Balance" (ANumber (Fin 150)) ])
  /\ exists categories',
      removeCategory [1%nat] trip_categories = Some categories'
      /\ length categories' = 1%nat
      /\ magnitude categories' <= exact_range
      /\ add (calculateTotalAllocated categories') (Fin 300) = Fin 700.
Proof.
  assert (Hm : magnitude trip_categories <= exact_range)
    by (vm_compute; discriminate).
  split; [exact Hm|]. split; [reflexivity|].
  exact (remove_root_category_total 1 trip_categories _ Hm eq_refl).
Defined.

Lemma below_zero_sub (a t : Z) : below_zero (sub (Fin a) (Fin t)) = (a <? t).
Proof.
  simpl. destruct (Z.ltb_spec (a - t) 0), (Z.ltb_spec a t); try done; lia.
Qed.

(** X16.  On a tree whose counted amounts are finite numbers or [null]
    and for a finite budget amount, the form disables its submit button,
    when it is not loading, exactly when the server's total exceeds the
    amount of the budget. *)
Theorem submit_disabled_when_over_allocated (amount : Z)
    (categories : list BudgetCategory) :
  Forall plain_amounts categories ->
  submit_disabled false (Fin amount) categories = true
  <-> amount < total_units categories.
Proof.
  intros H. unfold submit_disabled, remainingAmount.
  rewrite (form_calculateTotal_mirrors _ H).
  rewrite total_units_spec, below_zero_sub. cbn [orb].
  apply Z.ltb_lt.
Qed.

Lemma submit_disabled_when_over_allocated_witness :
  Forall plain_amounts trip_categories
  /\ submit_disabled false (Fin 500) trip_categories = true
  /\ submit_disabled false (Fin 1000) trip_categories = false.
Proof.
  assert (H : Forall plain_amounts trip_categories) by repeat constructor.
  split; [exact H|]. split.
  - apply (submit_disabled_when_over_allocated 500 trip_categories H).
    reflexivity.
  - destruct (submit_disabled false (Fin 1000) trip_categories) eqn:E;
      [|reflexivity].
    apply (submit_disabled_when_over_allocated 1000 trip_categories H) in E.
    vm_compute in E. discriminate.
Defined.

(** A total that is [NaN] never disables the button. *)
Example submit_not_disabled_on_NaN :
  submit_disabled false (Fin 0) [leaf "a" AUndefined; leaf "b" (ANumber (Fin 5))]
  = false.
Proof. reflexivity. Qed.

(* ===================================================================== *)
(** ** The budget templates: properties *)
(* ===================================================================== *)

Lemma has_id_true (i : string) (t : Template) : has_id i t = true <-> t_id t = i.
Proof. apply String.eqb_eq. Qed.

Lemma has_id_false (i : string) (t : Template) :
  has_id i t = false <-> t_id t <> i.
Proof. apply String.eqb_neq. Qed.

Lemma unique_from_ids (seen : gset string) (templates : list Template) :
  NoDup (map t_id (unique_from seen templates))
  /\ Forall (fun t => t_id t ∉ seen) (unique_from seen templates).
Proof.
  revert seen. induction templates as [|t rest IH]; intros seen; simpl.
  - split; constructor.
  - destruct (decide (t_id t ∈ seen)) as [Hin|Hout]; [apply IH|].
    destruct (IH ({[ t_id t ]} ∪ seen)) as [Hnd Hall]. split.
    + simpl. constructor; [|exact Hnd].
      intros Hmem. apply list_elem_of_fmap in Hmem as (t' & Heq & Ht').
      rewrite Forall_forall in Hall. specialize (Hall _ Ht').
      rewrite <- Heq in Hall. apply Hall.
      by apply elem_of_union_l, elem_of_singleton.
    + constructor; [exact Hout|].
      eapply Forall_impl; [exact Hall|]. intros x Hx Hin. apply Hx.
      by apply elem_of_union_r.
Qed.

Lemma unique_from_sublist (seen : gset string) (templates : list Template) :
  sublist (unique_from seen templates) templates.
Proof.
  revert seen. induction templates as [|t rest IH]; intros seen; simpl.
  - constructor.
  - destruct (decide (t_id t ∈ seen)).
    + apply sublist_cons, IH.
    + apply sublist_skip, IH.
Qed.

Lemma unique_from_find (seen : gset string) (templates : list Template)
    (i : string) :
  i ∉ seen ->
  find (has_id i) (unique_from seen templates) = find (has_id i) templates.
Proof.
  revert seen. induction templates as [|t rest IH]; intros seen Hi; simpl.
  - reflexivity.
  - destruct (decide (t_id t ∈ seen)) as [Hin|Hout].
    + assert (Hne : has_id i t = false).
      { apply has_id_false. intros Heq. apply Hi. by rewrite <- Heq. }
      rewrite Hne. by apply IH.
    + simpl. destruct (has_id i t) eqn:E; [reflexivity|].
      apply IH. apply has_id_false in E. intros Hin.
      apply elem_of_union in Hin as [Hin|Hin]; [|done].
      apply elem_of_singleton in Hin. congruence.
Qed.

Lemma find_own_id (templates : list Template) (t : Template) :
  NoDup (map t_id templates) -> t ∈ templates ->
  find (has_id (t_id t)) templates = Some t.
Proof.
  induction templates as [|x rest IH]; intros Hnd Hin; simpl.
  - by apply elem_of_nil in Hin.
  - simpl in Hnd. apply NoDup_cons in Hnd as [Hx Hnd].
    apply elem_of_cons in Hin as [->|Hin].
    + assert (E : has_id (t_id x) x = true) by by apply has_id_true.
      by rewrite E.
    + assert (E : has_id (t_id t) x = false).
      { apply has_id_false. intros Heq. apply Hx.
        apply list_elem_of_fmap. by exists t. }
      rewrite E. by apply IH.
Qed.

Lemma find_app {A} (f : A -> bool) (l1 l2 : list A) :
  find f (l1 ++ l2)
  = match find f l1 with Some x => Some x | None => find f l2 end.
Proof.
  induction l1 as [|x l1 IH]; simpl; [reflexivity|].
  by destruct (f x).
Qed.

Lemma find_none_id (templates : list Template) (i : string) :
  Forall (fun t => t_id t <> i) templates -> find (has_id i) templates = None.
Proof.
  induction 1 as [|t rest Ht _ IH]; simpl; [reflexivity|].
  apply has_id_false in Ht. by rewrite Ht.
Qed.

(** X17.  The templates shown keep the order of the list they come
    from, no two of them share an id, and looking a template up by id
    finds the same template in the shown list as in the full list: of
    several templates with one id the first is shown. *)
Theorem unique_templates_keep_first (templates : list Template) (i : string) :
  NoDup (map t_id (uniqueTemplates templates))
  /\ sublist (uniqueTemplates templates) templates
  /\ find (has_id i) (uniqueTemplates templates) = find (has_id i) templates.
Proof.
  split; [apply unique_from_ids|]. split; [apply unique_from_sublist|].
  apply unique_from_find, not_elem_of_empty.
Qed.

(** X18.  Which template a click applies: a life-event template that is
    shown is the one looked up for its id in the life-event templates
    followed by the lifestyle templates; a lifestyle template that is
    shown is the one looked up provided no life-event template has its
    id. *)
Theorem shown_template_is_applied (lifeEvents lifestyle : list Template)
    (t : Template) :
  t ∈ uniqueTemplates lifeEvents
  \/ (t ∈ uniqueTemplates lifestyle
      /\ Forall (fun e => t_id e <> t_id t) lifeEvents) ->
  find (has_id (t_id t)) (lifeEvents ++ lifestyle) = Some t.
Proof.
  assert (Hshown : forall l, t ∈ uniqueTemplates l ->
                             find (has_id (t_id t)) l = Some t).
  { intros l Hin.
    rewrite <- (unique_from_find ∅ l) by apply not_elem_of_empty.
    apply find_own_id; [apply unique_from_ids | exact Hin]. }
  intros [Hin | [Hin Hno]].
  - by rewrite find_app, (Hshown _ Hin).
  - by rewrite find_app, (find_none_id _ _ Hno), (Hshown _ Hin).
Qed.

Lemma shown_template_is_applied_witness :
  mkTemplate "wedding" "Wedding" []
    ∈ uniqueTemplates [mkTemplate "wedding" "Wedding" [];
                        mkTemplate "wedding" "Second wedding" []]
  /\ find (has_id "wedding")
        ([mkTemplate "wedding" "Wedding" [];
          mkTemplate "wedding" "Second wedding" []]
           ++ [mkTemplate "student" "Student" []])
     = Some (mkTemplate "wedding" "Wedding" []).
Proof.
  assert (H : mkTemplate "wedding" "Wedding" []
                ∈ uniqueTemplates [mkTemplate "wedding" "Wedding" [];
                                    mkTemplate "wedding" "Second wedding" []]).
  { vm_compute. apply list_elem_of_here. }
  split; [exact H|].
  exact (shown_template_is_applied _ [mkTemplate "student" "Student" []]
           (mkTemplate "wedding" "Wedding" []) (or_introl H)).
Defined.

(** A lifestyle template that shares its id with a life-event template
    is shown, but the click on it applies the life-event template. *)
Example shadowed_lifestyle_template :
  mkTemplate "starter" "Lifestyle starter" []
    ∈ uniqueTemplates [mkTemplate "starter" "Lifestyle starter" []]
  /\ find (has_id "starter")
        ([mkTemplate "starter" "Life-event starter" []]
           ++ [mkTemplate "starter" "Lifestyle starter" []])
     = Some (mkTemplate "starter" "Life-event starter" []).
Proof. split; [vm_compute; apply list_elem_of_here | reflexivity]. Qed.

Lemma template_total (uuid : nat -> string) (cats : list TemplateCategory) :
  calculateTotalAllocated
    (imap (fun i cat =>
             Category (uuid i) (tc_name cat)
               (ANumber (or_zero_if_nullish (tc_amount cat))) None [])
          cats)
  = sum_numbers
      (map (fun cat => or_zero (ANumber (or_zero_if_nullish (tc_amount cat))))
           cats).
Proof.
  rewrite calculateTotalAllocated_as_sum. f_equal.
  revert uuid. induction cats as [|cat cats IH]; intros uuid; [reflexivity|].
  cbn [imap map]. f_equal. apply (IH (uuid ∘ S)).
Qed.

Lemma template_sum (cats : list TemplateCategory) :
  Forall (fun cat => tc_amount cat <> ANumber NaN) cats ->
  fold_left (fun acc c => add acc (or_zero_if_nullish (tc_amount c))) cats (Fin 0)
  = sum_numbers
      (map (fun cat => or_zero (ANumber (or_zero_if_nullish (tc_amount cat))))
           cats).
Proof.
  intros H. rewrite loop_is_sum, add_zero_l. f_equal.
  apply map_ext_Forall. eapply Forall_impl; [exact H|].
  intros [n [| |[|z]]] Hn; simpl in *; try done.
  unfold or_zero. simpl. by destruct (Z.eqb_spec z 0) as [->|].
Qed.

(** X19.  A budget made from a template whose amounts are finite or
    missing is never over-allocated: its amount is the server's total of
    its categories, or 5000 when that total is 0. *)
Theorem template_budget_amount (uuid : nat -> string) (t : Template) :
  Forall (fun cat => tc_amount cat <> ANumber NaN) (t_categories t) ->
  defaultIncome t
  = if total_units (formattedCategories uuid t) =? 0
    then Fin 5000
    else calculateTotalAllocated (formattedCategories uuid t).
Proof.
  intros H. unfold defaultIncome. cbv zeta. rewrite (template_sum _ H).
  unfold total_units, formattedCategories. rewrite template_total.
  by destruct (sum_numbers _) as [|z]; [|simpl; destruct (z =? 0)].
Qed.

Lemma template_budget_amount_witness :
  Forall (fun cat => tc_amount cat <> ANumber NaN)
    [mkTemplateCategory "Venue" (ANumber (Fin 3000));
     mkTemplateCategory "Rings" AUndefined]
  /\ defaultIncome
       (mkTemplate "wedding" "Wedding"
          [mkTemplateCategory "Venue" (ANumber (Fin 3000));
           mkTemplateCategory "Rings" AUndefined])
     = Fin 3000.
Proof.
  assert (H : Forall (fun cat => tc_amount cat <> ANumber NaN)
                [mkTemplateCategory "Venue" (ANumber (Fin 3000));
                 mkTemplateCategory "Rings" AUndefined]).
  { repeat constructor; discriminate. }
  split; [exact H|].
  exact (template_budget_amount (fun _ => "id")
           (mkTemplate "wedding" "Wedding" _) H).
Defined.

(** A run of [p] followed by [f]: the requests of [p], then those of
    [f] on what [p] returned; an error of [p] ends the run. *)
Lemma run_bind {A B} (D : Datastore) (p : Action A) (f : A -> Action B)
    (s : db D) :
  run D (p ≫= f) s
  = match outcome (run D p s) with
    | Returned a =>
        mkRun (final (run D (f a) (final (run D p s))))
          (calls (run D p s) ++ calls (run D (f a) (final (run D p s))))
          (outcome (run D (f a) (final (run D p s))))
    | Thrown msg => mkRun (final (run D p s)) (calls (run D p s)) (Thrown msg)
    end.
Proof.
  revert s. induction p as [a|msg|X q k IH]; intros s.
  - simpl. by destruct (run D (f a) s).
  - reflexivity.
  - cbn [mbind Action_bind bind run].
    destruct (answer D X s q) as [s1 r1].
    change (bind (k r1) f) with (k r1 ≫= f). rewrite IH.
    cbn [final calls outcome].
    by destruct (outcome (run D (k r1) s1)).
Qed.

Lemma create_payload_other (user_id : string) (budgetData insertData : obj)
    (k : string) :
  create_payload user_id budgetData = inr insertData ->
  k <> "total_allocated" -> k <> "user_id" -> k <> "end_date" ->
  insertData !! k = budgetData !! k.
Proof.
  intros H H1 H2 H3.
  destruct (truthy (budgetData !! "start_date")) eqn:Hs;
    [|by rewrite create_payload_rejects in H].
  destruct (truthy_is_Some _ Hs) as [sd Hsd]. rewrite Hsd in Hs.
  unfold create_payload in H. cbv zeta in H. revert H.
  destruct (end_date_cases (budgetData !! "end_date")) as [Hb|[He Hn]].
  - destruct Hb as [He|[He|He]]; norm; intros [= <-]; by lookups.
  - norm. intros [= <-]. by lookups.
Qed.

Lemma newBudgetData_lookup (uuid : nat -> string) (today : string)
    (t : Template) :
  newBudgetData uuid today t !! "start_date" = Some (VStr today)
  /\ newBudgetData uuid today t !! "end_date" = None
  /\ newBudgetData uuid today t !! "amount" = Some (VNum (defaultIncome t))
  /\ newBudgetData uuid today t !! "categories"
     = Some (VCategories (formattedCategories uuid t))
  /\ newBudgetData uuid today t !! "name"
     = Some (VStr (t_name t ++ " Budget")%string).
Proof. unfold newBudgetData. repeat split; by simplify_map_eq. Qed.

(** X20.  Applying a template as a signed-in user sends an insert first,
    and the budget it writes runs for one day: its start and end date
    are both the day of the click.  It carries the user's id, the amount
    computed from the template and one category without subcategories
    per category of the template. *)
Theorem template_budget_is_one_day (D : Datastore) (s : db D)
    (user_id selected today : string) (uuid : nat -> string)
    (lifeEvents lifestyle : list Template) (t : Template) :
  selected <> "" -> today <> "" ->
  find (has_id selected) (lifeEvents ++ lifestyle) = Some t ->
  exists payload rest,
    calls (run D (handleApplyTemplate (signed_in user_id) uuid today
                    lifeEvents lifestyle (Some selected)) s)
    = call (InsertSingle payload) :: rest
    /\ payload !! "start_date" = Some (VStr today)
    /\ payload !! "end_date" = Some (VStr today)
    /\ payload !! "user_id" = Some (VStr user_id)
    /\ payload !! "amount" = Some (VNum (defaultIncome t))
    /\ payload !! "categories"
       = Some (VCategories (formattedCategories uuid t)).
Proof.
  intros Hsel Htoday Hfind.
  destruct (newBudgetData_lookup uuid today t)
    as (Hstart & Hend & Hamount & Hcats & _).
  assert (Hs : truthy (newBudgetData uuid today t !! "start_date") = true).
  { rewrite Hstart. by destruct today. }
  destruct (create_payload user_id (newBudgetData uuid today t))
    as [msg|p] eqn:E.
  { apply create_payload_inl in E as [E _]. congruence. }
  pose proof (create_payload_other _ _ _ "amount" E) as Ha.
  pose proof (create_payload_other _ _ _ "categories" E) as Hc.
  apply create_payload_inr in E as Hp.
  destruct Hp as (_ & Hsd & _ & Hu & He & _).
  unfold handleApplyTemplate. destruct selected as [|c sel]; [done|].
  rewrite Hfind, run_bind.
  pose proof (createBudget_block _ _ _ E) as Hblock.
  pose proof (fallback_block_calls D s (InsertSingle p)
                (InsertSingle (delete "categories" p)) is_missing_column
                "Error creating budget: " (fun budget => budget)) as Hcalls.
  rewrite <- Hblock in Hcalls.
  exists p.
  destruct (outcome (run D (createBudget (signed_in user_id)
                              (newBudgetData uuid today t)) s));
    cbn [calls]; destruct Hcalls as [-> | ->]; eexists;
    (split; [reflexivity|]);
    (repeat split;
     [ by rewrite Hsd
     | rewrite He; [done | by left]
     | done
     | by rewrite Ha
     | by rewrite Hc ]).
Qed.

Lemma template_budget_is_one_day_witness :
  "wedding" <> "" /\ "2025-07-18" <> ""
  /\ find (has_id "wedding")
       ([mkTemplate "wedding" "Wedding"
           [mkTemplateCategory "Venue" (ANumber (Fin 3000))]] ++ [])
     = Some (mkTemplate "wedding" "Wedding"
               [mkTemplateCategory "Venue" (ANumber (Fin 3000))])
  /\ exists payload rest,
      calls (run reference
               (handleApplyTemplate (signed_in "alice") (fun _ => "c1")
                  "2025-07-18"
                  [mkTemplate "wedding" "Wedding"
                     [mkTemplateCategory "Venue" (ANumber (Fin 3000))]] []
                  (Some "wedding"))
               empty_table)
      = call (InsertSingle payload) :: rest
      /\ payload !! "start_date" = Some (VStr "2025-07-18")
      /\ payload !! "end_date" = Some (VStr "2025-07-18")
      /\ payload !! "user_id" = Some (VStr "alice")
      /\ payload !! "amount" = Some (VNum (Fin 3000))
      /\ payload !! "categories"
         = Some (VCategories
                   [Category "c1" "Venue" (ANumber (Fin 3000)) None []]).
Proof.
  assert (H1 : "wedding" <> "") by discriminate.
  assert (H2 : "2025-07-18" <> "") by discriminate.
  split; [exact H1|]. split; [exact H2|]. split; [reflexivity|].
  exact (template_budget_is_one_day reference empty_table "alice" "wedding"
           "2025-07-18" (fun _ => "c1")
           [mkTemplate "wedding" "Wedding"
              [mkTemplateCategory "Venue" (ANumber (Fin 3000))]] []
           _ H1 H2 eq_refl).
Defined.

(* ===================================================================== *)
(** ** Further properties of the server actions *)
(* ===================================================================== *)

Lemma update_payload_rejects (budgetData : obj) :
  budgetData !! "start_date" = Some (VStr "") ->
  update_payload budgetData = inl UpdateValidationError.
Proof. intros H. unfold update_payload. cbv zeta. lookups. by rewrite H. Qed.

Lemma update_payload_accepts (budgetData : obj) :
  budgetData !! "start_date" <> Some (VStr "") ->
  exists updateData, update_payload budgetData = inr updateData.
Proof.
  intros H. unfold update_payload. cbv zeta. lookups.
  destruct (budgetData !! "start_date") as [[|[|c s]| |]|]; by eauto.
Qed.

(** X21.  [updateBudget] refuses a [start_date] that is the empty string
    before it reaches the datastore, whatever the session; every other
    partial update of a signed-in user, also one without [start_date],
    is sent to the datastore. *)
Theorem update_start_date_check (D : Datastore) (s : db D) (sess : Session)
    (user_id id : string) (budgetData : obj) :
  (budgetData !! "start_date" = Some (VStr "") ->
   run D (updateBudget (signed_in user_id) id budgetData) s
   = mkRun s [] (Thrown UpdateValidationError)
   /\ calls (run D (updateBudget sess id budgetData) s) = []
   /\ final (run D (updateBudget sess id budgetData) s) = s)
  /\ (budgetData !! "start_date" <> Some (VStr "") ->
      exists updateData rest,
        calls (run D (updateBudget (signed_in user_id) id budgetData) s)
        = call (UpdateSingle updateData id user_id) :: rest).
Proof.
  split.
  - intros H. apply update_payload_rejects in H.
    split; [unfold updateBudget; simpl; by rewrite H|].
    destruct sess as [[|] [u|]]; unfold updateBudget; simpl; rewrite ?H; done.
  - intros H. destruct (update_payload_accepts _ H) as [p E]. exists p.
    rewrite (updateBudget_block _ _ _ _ E).
    destruct (fallback_block_calls D s (UpdateSingle p id user_id)
                (UpdateSingle (delete "categories" p) id user_id)
                is_missing_column "Error updating budget: "
                (fun budget => budget)) as [-> | ->]; eauto.
Qed.

Lemma update_start_date_check_witness :
  run reference
    (updateBudget (signed_in "alice") "b1" {[ "start_date" := VStr "" ]})
    one_budget
  = mkRun one_budget [] (Thrown UpdateValidationError)
  /\ exists updateData rest,
      calls (run reference
               (updateBudget (signed_in "alice") "b1"
                  {[ "amount" := VNum (Fin 500) ]})
               one_budget)
      = call (UpdateSingle updateData "b1" "alice") :: rest.
Proof.
  split.
  - exact (proj1 (proj1 (update_start_date_check reference one_budget
                           anonymous "alice" "b1"
                           {[ "start_date" := VStr "" ]}) eq_refl)).
  - apply (proj2 (update_start_date_check reference one_budget
                    anonymous "alice" "b1" {[ "amount" := VNum (Fin 500) ]})).
    discriminate.
Defined.

(** X22.  Every document [createBudget] writes carries the id of the
    signed-in user as [user_id], whatever [user_id] the input holds; the
    retry without [categories] carries it too. *)
Theorem create_writes_for_the_session_user (D : Datastore) (s : db D)
    (user_id : string) (budgetData : obj) :
  Forall (writes_for user_id)
    (calls (run D (createBudget (signed_in user_id) budgetData) s)).
Proof.
  destruct (createBudget_calls D s (signed_in user_id) budgetData)
    as [-> | (u & p & [= <-] & E & Hc)]; [constructor|].
  apply create_payload_inr in E as (_ & _ & _ & Hu & _).
  destruct Hc as [-> | ->]; repeat constructor;
    unfold writes_for; simpl; by lookups.
Qed.

Example create_overrides_user_id :
  calls (run reference
           (createBudget (signed_in "alice")
              (<["user_id" := VStr "mallory"]> trip))
           empty_table)
  = [call (InsertSingle trip_payload)].
Proof. vm_compute. reflexivity. Qed.

(** X23.  An [end_date] that is given, that is neither omitted nor
    [null] nor the empty string, is written as it is by [createBudget]
    and by [updateBudget]. *)
Theorem given_end_date_is_kept (D : Datastore) (s : db D)
    (user_id id : string) (budgetData : obj) :
  ~ end_date_blank budgetData ->
  Forall (writes_end_date (budgetData !! "end_date"))
    (calls (run D (createBudget (signed_in user_id) budgetData) s))
  /\ Forall (writes_end_date (budgetData !! "end_date"))
       (calls (run D (updateBudget (signed_in user_id) id budgetData) s)).
Proof.
  intros Hb. split.
  - destruct (createBudget_calls D s (signed_in user_id) budgetData)
      as [-> | (u & p & _ & E & Hc)]; [constructor|].
    apply create_payload_inr in E as (_ & _ & _ & _ & _ & He).
    specialize (He Hb).
    destruct Hc as [-> | ->]; repeat constructor;
      unfold writes_end_date; simpl; by lookups.
  - destruct (updateBudget_calls D s (signed_in user_id) id budgetData)
      as [-> | (u & p & _ & E & Hc)]; [constructor|].
    apply update_payload_inr in E as (_ & _ & _ & _ & He).
    specialize (He Hb).
    destruct Hc as [-> | ->]; repeat constructor;
      unfold writes_end_date; simpl; by lookups.
Qed.

Lemma given_end_date_is_kept_witness :
  ~ end_date_blank (<["end_date" := VStr "2024-01-31"]> trip)
  /\ Forall (writes_end_date (Some (VStr "2024-01-31")))
       [call (InsertSingle
                (<["user_id" := VStr "alice"]>
                   (<["end_date" := VStr "2024-01-31"]> trip)))].
Proof.
  assert (H : ~ end_date_blank (<["end_date" := VStr "2024-01-31"]> trip)).
  { intros [H|[H|H]]; vm_compute in H; discriminate. }
  split; [exact H|].
  exact (proj1 (given_end_date_is_kept reference empty_table "alice" "b1"
                  (<["end_date" := VStr "2024-01-31"]> trip) H)).
Defined.

Lemma with_total_carries (budget : obj) : carries_its_total (with_total budget).
Proof.
  exists (categories_or_empty (budget !! "categories")).
  unfold with_total. split; by lookups.
Qed.

(** X24.  Whatever the datastore, when every row it hands out holds as
    [categories] an array or nothing (absent, [null] or another falsy
    value), every budget [getBudgets] returns carries an array of
    categories and, as [total_allocated], the server's total of that
    array; and, apart from that, the budget [getBudgetById] returns
    carries the server's total of the categories it carries, 0 when it
    carries none. *)
Theorem returned_budgets_carry_their_total (D : Datastore) (s : db D)
    (sess : Session) (id : string) :
  (forall budgets : list obj,
      forallb array_or_nothing (handed_out D (getBudgets sess) s) = true ->
      outcome (run D (getBudgets sess) s) = Returned budgets ->
      Forall carries_its_total budgets)
  /\ (forall budget : obj,
        forallb array_or_nothing (handed_out D (getBudgetById sess id) s)
        = true ->
        outcome (run D (getBudgetById sess id) s) = Returned (Some budget) ->
        budget !! "total_allocated"
        = Some (VNum (calculateTotalAllocated
                        (categories_or_empty (budget !! "categories"))))).
Proof.
  split.
  - intros budgets _ Hl.
    destruct sess as [[|] [u|]]; try (injection Hl as <-; constructor).
    change (mkSession true (Some u)) with (signed_in u) in Hl.
    rewrite getBudgets_block in Hl.
    pose proof (fallback_block_retries_once D s
                  (SelectMany list_columns u) (SelectMany fallback_columns u)
                  (fun e => String.eqb (code e) "42703")
                  "Failed to fetch budgets: "
                  (fun budgets => map with_total (default [] budgets))) as R.
    unfold retries_once in R.
    destruct (answer D _ s (SelectMany list_columns u)) as [s1 [d1 [e1|]]];
      cbn [error data] in R.
    + destruct (String.eqb (code e1) "42703").
      * destruct (answer D _ s1 (SelectMany fallback_columns u))
          as [s2 [d2 [e2|]]]; cbn [error data] in R;
          rewrite R in Hl; [discriminate|].
        injection Hl as <-. apply Forall_map, Forall_forall.
        intros b _. apply with_total_carries.
      * rewrite R in Hl. discriminate.
    + rewrite R in Hl. injection Hl as <-. apply Forall_map, Forall_forall.
      intros b _. apply with_total_carries.
  - intros budget _ Hb.
    destruct sess as [[|] [u|]]; try discriminate.
    unfold getBudgetById in Hb. simpl in Hb.
    destruct (answer D obj s (SelectSingle id u)) as [s1 [[b|] [e1|]]];
      simpl in Hb; try discriminate.
    injection Hb as <-. by lookups.
Qed.

Lemma returned_budgets_carry_their_total_witness :
  forallb array_or_nothing
    (handed_out reference (getBudgets (signed_in "alice")) one_budget) = true
  /\ outcome (run reference (getBudgets (signed_in "alice")) one_budget)
     = Returned [with_total (delete "user_id" stored_trip)]
  /\ Forall carries_its_total [with_total (delete "user_id" stored_trip)]
  /\ forallb array_or_nothing
       (handed_out reference (getBudgetById (signed_in "alice") "b1")
          one_budget) = true
  /\ outcome (run reference (getBudgetById (signed_in "alice") "b1") one_budget)
     = Returned (Some (<["total_allocated" := VNum (Fin 700)]> stored_trip)).
Proof.
  assert (Hr : forallb array_or_nothing
                 (handed_out reference (getBudgets (signed_in "alice"))
                    one_budget) = true)
    by (vm_compute; reflexivity).
  assert (Hl : outcome (run reference (getBudgets (signed_in "alice"))
                          one_budget)
               = Returned [with_total (delete "user_id" stored_trip)])
    by (vm_compute; reflexivity).
  split; [exact Hr|]. split; [exact Hl|]. split.
  - exact (proj1 (returned_budgets_carry_their_total reference one_budget
                    (signed_in "alice") "b1") _ Hr Hl).
  - split; vm_compute; reflexivity.
Defined.

(** A request that the reference datastore answers with an error has
    changed nothing. *)
Lemma reference_error_unchanged (X : Type) (t t' : Budgets) (q : Request X)
    (d : option X) (e : PostgrestError) :
  reference_answer X t q = (t', mkResult d (Some e)) -> t' = t.
Proof.
  destruct q as [cols u|id u|payload|payload id u|id u]; simpl.
  - destruct (unknown_column t cols); by intros [= <-].
  - destruct (find_row t id u); by intros [= <-].
  - destruct (unknown_column t _); [by intros [= <-]|].
    destruct (rows t !! _); [by intros [= <-] | discriminate].
  - destruct (unknown_column t _); [by intros [= <-]|].
    destruct (find_row t id u); [discriminate | by intros [= <-]].
  - destruct (find_row t id u); discriminate.
Qed.

(** A run of the fallback block on the reference datastore either fails
    and leaves the table as it was, or ends with the one request that
    succeeded, the first or the retry. *)
Lemma fallback_block_on_reference {X A} (first retry : Request X)
    (recognised : PostgrestError -> bool) (prefix : string)
    (ret : option X -> A) (t : Budgets) :
  (final (run reference (fallback_block first retry recognised prefix ret) t)
   = t
   /\ exists msg,
       outcome (run reference
                  (fallback_block first retry recognised prefix ret) t)
       = Thrown msg)
  \/ exists q d t',
      (q = first \/ q = retry)
      /\ reference_answer X t q = (t', mkResult d None)
      /\ final (run reference
                  (fallback_block first retry recognised prefix ret) t) = t'
      /\ outcome (run reference
                    (fallback_block first retry recognised prefix ret) t)
         = Returned (ret d).
Proof.
  pose proof (fallback_block_retries_once reference t first retry recognised
                prefix ret) as R.
  unfold retries_once in R. cbn [answer reference] in R.
  destruct (reference_answer X t first) as [t1 [d1 [e1|]]] eqn:A1;
    cbn [error data] in R.
  - apply reference_error_unchanged in A1 as ->.
    destruct (recognised e1).
    + destruct (reference_answer X t retry) as [t2 [d2 [e2|]]] eqn:A2;
        cbn [error data] in R; rewrite R; cbn [final outcome].
      * apply reference_error_unchanged in A2 as ->. left. eauto.
      * right. exists retry, d2, t2. auto.
    + rewrite R. left. cbn. eauto.
  - rewrite R. right. exists first, d1, t1. auto.
Qed.

Lemma table_eta (t : Budgets) : mkBudgets (rows t) (categories_column t) = t.
Proof. by destruct t. Qed.

(** An insert that the reference datastore accepts stores the document,
    with its id, under an id the table did not hold. *)
Lemma reference_insert_fresh (t t' : Budgets) (payload : obj)
    (d : option obj) :
  reference_answer obj t (InsertSingle payload) = (t', mkResult d None) ->
  exists id,
    rows t !! id = None
    /\ d = Some (<["id" := VStr id]> payload)
    /\ t' = mkBudgets (<[id := <["id" := VStr id]> payload]> (rows t))
              (categories_column t).
Proof.
  simpl. destruct (unknown_column t _); [discriminate|].
  set (id := match payload !! "id" with
             | Some (VStr i) => i
             | _ => fresh (dom (rows t))
             end).
  destruct (rows t !! id) eqn:E; [discriminate|].
  intros [= <- <-]. by exists id.
Qed.

(** [createBudget] on the reference datastore. *)
Lemma createBudget_on_reference (t : Budgets) (user_id : string)
    (budgetData : obj) :
  (final (run reference (createBudget (signed_in user_id) budgetData) t) = t
   /\ exists msg,
       outcome (run reference (createBudget (signed_in user_id) budgetData) t)
       = Thrown msg)
  \/ exists insertData doc id,
      create_payload user_id budgetData = inr insertData
      /\ (doc = insertData \/ doc = delete "categories" insertData)
      /\ rows t !! id = None
      /\ final (run reference (createBudget (signed_in user_id) budgetData) t)
         = mkBudgets (<[id := <["id" := VStr id]> doc]> (rows t))
             (categories_column t)
      /\ outcome (run reference (createBudget (signed_in user_id) budgetData) t)
         = Returned (Some (<["id" := VStr id]> doc)).
Proof.
  destruct (create_payload user_id budgetData) as [msg|p] eqn:E.
  { left. unfold createBudget. simpl. rewrite E. cbn. eauto. }
  rewrite (createBudget_block _ _ _ E).
  destruct (fallback_block_on_reference (InsertSingle p)
              (InsertSingle (delete "categories" p)) is_missing_column
              "Error creating budget: " (fun budget : option obj => budget) t)
    as [Hfail | (q & d & t' & Hq & Ha & Hfinal & Hout)]; [by left|].
  right. rewrite Hfinal, Hout.
  destruct Hq as [-> | ->];
    apply reference_insert_fresh in Ha as (i & Hi & -> & ->).
  - exists p, p, i. auto.
  - exists p, (delete "categories" p), i. auto.
Qed.

(** [updateBudget] on the reference datastore. *)
Lemma updateBudget_on_reference (t : Budgets) (user_id id : string)
    (budgetData : obj) :
  (final (run reference (updateBudget (signed_in user_id) id budgetData) t) = t
   /\ exists msg,
       outcome (run reference
                  (updateBudget (signed_in user_id) id budgetData) t)
       = Thrown msg)
  \/ exists doc row,
      find_row t id user_id = Some row
      /\ final (run reference
                  (updateBudget (signed_in user_id) id budgetData) t)
         = mkBudgets (<[id := doc ∪ row]> (rows t)) (categories_column t)
      /\ outcome (run reference
                    (updateBudget (signed_in user_id) id budgetData) t)
         = Returned (Some (doc ∪ row)).
Proof.
  destruct (update_payload budgetData) as [msg|p] eqn:E.
  { left. unfold updateBudget. simpl. rewrite E. cbn. eauto. }
  rewrite (updateBudget_block _ _ _ _ E).
  destruct (fallback_block_on_reference (UpdateSingle p id user_id)
              (UpdateSingle (delete "categories" p) id user_id)
              is_missing_column "Error updating budget: "
              (fun budget : option obj => budget) t)
    as [Hfail | (q & d & t' & Hq & Ha & Hfinal & Hout)]; [by left|].
  right. rewrite Hfinal, Hout.
  destruct Hq as [-> | ->];
    apply reference_update_ok in Ha as (row & Hf & -> & ->); eauto.
Qed.

Lemma find_row_owned (t : Budgets) (id user_id : string) (row : obj) :
  find_row t id user_id = Some row ->
  rows t !! id = Some row /\ owned_by user_id row = true.
Proof. apply find_row_lookup. Qed.

(** X25.  On the reference datastore an update or a delete by a
    signed-in user never changes a budget that user does not own,
    whatever id and data the call carries. *)
Theorem other_owners_budgets_are_untouched (t : Budgets)
    (user_id id other : string) (budgetData row : obj) :
  rows t !! other = Some row ->
  owned_by user_id row = false ->
  rows (final (run reference
                 (updateBudget (signed_in user_id) id budgetData) t))
    !! other = Some row
  /\ rows (final (run reference (deleteBudget (signed_in user_id) id) t))
       !! other = Some row.
Proof.
  intros Hrow Hown.
  assert (Hne : forall r, find_row t id user_id = Some r -> id <> other).
  { intros r Hf ->. apply find_row_owned in Hf as [Hr Ho]. congruence. }
  split.
  - destruct (updateBudget_on_reference t user_id id budgetData)
      as [[-> _] | (doc & r & Hf & -> & _)]; [exact Hrow|].
    cbn [rows]. by rewrite lookup_insert_ne by eauto.
  - rewrite deleteBudget_run. cbn [final].
    destruct (find_row t id user_id) as [r|] eqn:Hf; [|exact Hrow].
    cbn [rows]. by rewrite lookup_delete_ne by eauto.
Qed.

Lemma other_owners_budgets_are_untouched_witness :
  rows one_budget !! "b1" = Some stored_trip
  /\ owned_by "mallory" stored_trip = false
  /\ rows (final (run reference
                    (updateBudget (signed_in "mallory") "b1"
                       {[ "amount" := VNum (Fin 1) ]})
                    one_budget))
       !! "b1" = Some stored_trip
  /\ rows (final (run reference (deleteBudget (signed_in "mallory") "b1")
                    one_budget))
       !! "b1" = Some stored_trip.
Proof.
  assert (H1 : rows one_budget !! "b1" = Some stored_trip)
    by (vm_compute; reflexivity).
  assert (H2 : owned_by "mallory" stored_trip = false) by reflexivity.
  split; [exact H1|]. split; [exact H2|].
  exact (other_owners_budgets_are_untouched one_budget "mallory" "b1" "b1"
           {[ "amount" := VNum (Fin 1) ]} stored_trip H1 H2).
Defined.

(** X26.  On the reference datastore [createBudget] never changes a
    budget the table already holds, and an update or a delete changes no
    budget under another id than the one it names. *)
Theorem writes_touch_one_budget (t : Budgets) (user_id id other : string)
    (budgetData row : obj) :
  rows t !! other = Some row ->
  rows (final (run reference (createBudget (signed_in user_id) budgetData) t))
    !! other = Some row
  /\ (other <> id ->
      rows (final (run reference
                     (updateBudget (signed_in user_id) id budgetData) t))
        !! other = Some row
      /\ rows (final (run reference (deleteBudget (signed_in user_id) id) t))
           !! other = Some row).
Proof.
  intros Hrow. split; [|intros Hne; split].
  - destruct (createBudget_on_reference t user_id budgetData)
      as [[-> _] | (p & doc & i & _ & _ & Hi & -> & _)]; [exact Hrow|].
    cbn [rows]. rewrite lookup_insert_ne; [exact Hrow | congruence].
  - destruct (updateBudget_on_reference t user_id id budgetData)
      as [[-> _] | (doc & r & Hf & -> & _)]; [exact Hrow|].
    cbn [rows]. by rewrite lookup_insert_ne.
  - rewrite deleteBudget_run. cbn [final].
    destruct (find_row t id user_id) as [r|]; [|exact Hrow].
    cbn [rows]. by rewrite lookup_delete_ne.
Qed.

Lemma writes_touch_one_budget_witness :
  rows one_budget !! "b1" = Some stored_trip
  /\ rows (final (run reference (createBudget (signed_in "alice") trip)
                    one_budget))
       !! "b1" = Some stored_trip
  /\ rows (final (run reference (deleteBudget (signed_in "alice") "b2")
                    one_budget))
       !! "b1" = Some stored_trip.
Proof.
  assert (H1 : rows one_budget !! "b1" = Some stored_trip)
    by (vm_compute; reflexivity).
  split; [exact H1|].
  destruct (writes_touch_one_budget one_budget "alice" "b2" "b1" trip
              stored_trip H1) as [Hc Hud].
  split; [exact Hc|]. apply Hud. discriminate.
Defined.

(** X27.  On the reference datastore [updateBudget] of a budget the
    signed-in user does not have (no such id, or another owner's) throws
    and leaves the table as it was. *)
Theorem update_of_missing_budget_fails (t : Budgets) (user_id id : string)
    (budgetData : obj) :
  find_row t id user_id = None ->
  final (run reference (updateBudget (signed_in user_id) id budgetData) t) = t
  /\ exists msg,
      outcome (run reference
                 (updateBudget (signed_in user_id) id budgetData) t)
      = Thrown msg.
Proof.
  intros H.
  destruct (updateBudget_on_reference t user_id id budgetData)
    as [Hfail | (doc & r & Hf & _)]; [exact Hfail | congruence].
Qed.

Lemma update_of_missing_budget_fails_witness :
  find_row one_budget "b1" "mallory" = None
  /\ final (run reference
              (updateBudget (signed_in "mallory") "b1"
                 {[ "amount" := VNum (Fin 1) ]})
              one_budget)
     = one_budget
  /\ exists msg,
      outcome (run reference
                 (updateBudget (signed_in "mallory") "b1"
                    {[ "amount" := VNum (Fin 1) ]})
                 one_budget)
      = Thrown msg.
Proof.
  assert (H : find_row one_budget "b1" "mallory" = None) by reflexivity.
  split; [exact H|].
  exact (update_of_missing_budget_fails one_budget "mallory" "b1"
           {[ "amount" := VNum (Fin 1) ]} H).
Defined.

Lemma owned_by_own (user_id : string) (row : obj) :
  row !! "user_id" = Some (VStr user_id) -> owned_by user_id row = true.
Proof. intros H. unfold owned_by. rewrite H. apply String.eqb_refl. Qed.

(** What a successful [createBudget] leaves on the reference datastore. *)
Lemma createBudget_returned (t t' : Budgets) (user_id : string)
    (budgetData created : obj) (cs : list Call) :
  run reference (createBudget (signed_in user_id) budgetData) t
  = mkRun t' cs (Returned (Some created)) ->
  exists id,
    created !! "id" = Some (VStr id)
    /\ rows t !! id = None
    /\ t' = mkBudgets (<[id := created]> (rows t)) (categories_column t)
    /\ find_row t' id user_id = Some created.
Proof.
  intros Hrun.
  destruct (createBudget_on_reference t user_id budgetData)
    as [[_ [msg Hmsg]] | (p & doc & i & E & Hdoc & Hi & Hfinal & Hout)];
    rewrite Hrun in *; cbn [final outcome] in *; [discriminate|].
  injection Hout as ->. subst t'. exists i.
  split; [by lookups|]. split; [exact Hi|]. split; [reflexivity|].
  unfold find_row. cbn [rows]. rewrite lookup_insert_eq.
  rewrite owned_by_own; [reflexivity|].
  apply create_payload_inr in E as (_ & _ & _ & Hu & _).
  destruct Hdoc as [-> | ->]; by lookups.
Qed.

(** X28.  On the reference datastore a budget that [createBudget] has
    returned is read back by [getBudgetById] under the id it was given,
    with the server's total of its categories added. *)
Theorem created_budget_is_read_back (t t' : Budgets) (user_id : string)
    (budgetData created : obj) (cs : list Call) :
  run reference (createBudget (signed_in user_id) budgetData) t
  = mkRun t' cs (Returned (Some created)) ->
  exists id,
    created !! "id" = Some (VStr id)
    /\ run reference (getBudgetById (signed_in user_id) id) t'
       = mkRun t' [call (SelectSingle id user_id)]
           (Returned
              (Some (<["total_allocated" :=
                         VNum (calculateTotalAllocated
                                 (categories_or_empty
                                    (created !! "categories")))]>
                       created))).
Proof.
  intros Hrun.
  apply createBudget_returned in Hrun as (id & Hid & _ & _ & Hf).
  exists id. split; [exact Hid|]. by apply getBudgetById_found.
Qed.

Lemma created_budget_is_read_back_witness :
  run reference (createBudget (signed_in "alice") trip) empty_table
  = mkRun (mkBudgets {[ "0" := <["id" := VStr "0"]> trip_payload ]} true)
      [call (InsertSingle trip_payload)]
      (Returned (Some (<["id" := VStr "0"]> trip_payload)))
  /\ exists id,
      (<["id" := VStr "0"]> trip_payload) !! "id" = Some (VStr id)
      /\ run reference (getBudgetById (signed_in "alice") id)
           (mkBudgets {[ "0" := <["id" := VStr "0"]> trip_payload ]} true)
         = mkRun (mkBudgets {[ "0" := <["id" := VStr "0"]> trip_payload ]} true)
             [call (SelectSingle id "alice")]
             (Returned
                (Some (<["total_allocated" :=
                           VNum (calculateTotalAllocated
                                   (categories_or_empty
                                      ((<["id" := VStr "0"]> trip_payload)
                                         !! "categories")))]>
                         (<["id" := VStr "0"]> trip_payload)))).
Proof.
  assert (H : run reference (createBudget (signed_in "alice") trip) empty_table
              = mkRun
                  (mkBudgets {[ "0" := <["id" := VStr "0"]> trip_payload ]} true)
                  [call (InsertSingle trip_payload)]
                  (Returned (Some (<["id" := VStr "0"]> trip_payload))))
    by (vm_compute; reflexivity).
  split; [exact H|].
  exact (created_budget_is_read_back _ _ _ _ _ _ H).
Defined.

(** X29.  On the reference datastore, deleting the budget that
    [createBudget] has just returned brings the table back to what it
    was before the creation. *)
Theorem create_then_delete_restores (t t' : Budgets) (user_id id : string)
    (budgetData created : obj) (cs : list Call) :
  run reference (createBudget (signed_in user_id) budgetData) t
  = mkRun t' cs (Returned (Some created)) ->
  created !! "id" = Some (VStr id) ->
  run reference (deleteBudget (signed_in user_id) id) t'
  = mkRun t [call (Delete id user_id)] (Returned true).
Proof.
  intros Hrun Hid.
  apply createBudget_returned in Hrun as (i & Hi & Hnew & -> & Hf).
  assert (i = id) as -> by congruence.
  rewrite deleteBudget_run, Hf. cbn [rows categories_column].
  by rewrite delete_insert_eq, (delete_id _ _ Hnew), table_eta.
Qed.

Lemma create_then_delete_restores_witness :
  run reference (createBudget (signed_in "alice") trip) one_budget
  = mkRun
      (mkBudgets (<["0" := <["id" := VStr "0"]> trip_payload]> (rows one_budget))
         true)
      [call (InsertSingle trip_payload)]
      (Returned (Some (<["id" := VStr "0"]> trip_payload)))
  /\ (<["id" := VStr "0"]> trip_payload) !! "id" = Some (VStr "0")
  /\ run reference (deleteBudget (signed_in "alice") "0")
       (mkBudgets (<["0" := <["id" := VStr "0"]> trip_payload]> (rows one_budget))
          true)
     = mkRun one_budget [call (Delete "0" "alice")] (Returned true).
Proof.
  assert (H : run reference (createBudget (signed_in "alice") trip) one_budget
              = mkRun
                  (mkBudgets
                     (<["0" := <["id" := VStr "0"]> trip_payload]>
                        (rows one_budget)) true)
                  [call (InsertSingle trip_payload)]
                  (Returned (Some (<["id" := VStr "0"]> trip_payload))))
    by (vm_compute; reflexivity).
  assert (Hid : (<["id" := VStr "0"]> trip_payload) !! "id" = Some (VStr "0"))
    by (vm_compute; reflexivity).
  split; [exact H|]. split; [exact Hid|].
  exact (create_then_delete_restores _ _ _ _ _ _ _ H Hid).
Defined.

Lemma list_columns_unknown (t : Budgets) :
  categories_column t = false ->
  unknown_column t list_columns = Some "categories"
  /\ unknown_column t fallback_columns = None.
Proof. destruct t as [r [|]]; [done|]. intros _. split; vm_compute; reflexivity. Qed.

Lemma project_fallback_categories (row : obj) :
  project fallback_columns row !! "categories" = None.
Proof.
  unfold project. apply map_lookup_filter_None. right.
  intros x _ Hin. cbn in Hin. vm_compute in Hin.
  repeat (apply elem_of_cons in Hin as [Hin|Hin]; [discriminate|]).
  by apply elem_of_nil in Hin.
Qed.

(** X30.  On a reference datastore whose table has no [categories]
    column [getBudgets] still succeeds: it asks twice, the second time
    without the column, and returns every budget with an empty array of
    categories and a total of 0. *)
Theorem list_without_categories_column (t : Budgets) (user_id : string) :
  categories_column t = false ->
  exists budgets,
    run reference (getBudgets (signed_in user_id)) t
    = mkRun t
        [call (SelectMany list_columns user_id);
         call (SelectMany fallback_columns user_id)]
        (Returned budgets)
    /\ Forall (fun b => b !! "categories" = Some (VCategories [])
                        /\ b !! "total_allocated" = Some (VNum (Fin 0)))
         budgets.
Proof.
  intros H. destruct (list_columns_unknown t H) as [H1 H2].
  rewrite getBudgets_block.
  pose proof (fallback_block_retries_once reference t
                (SelectMany list_columns user_id)
                (SelectMany fallback_columns user_id)
                (fun e => String.eqb (code e) "42703")
                "Failed to fetch budgets: "
                (fun budgets => map with_total (default [] budgets))) as R.
  unfold retries_once in R. cbn [answer reference reference_answer] in R.
  rewrite H1 in R. cbn [error data code] in R.
  change (String.eqb "42703" "42703") with true in R. cbv iota in R.
  rewrite H2 in R. cbn [error data] in R.
  eexists. split; [exact R|].
  cbn [default]. apply Forall_map, Forall_map, Forall_forall.
  intros row _. cbn. unfold with_total.
  rewrite project_fallback_categories. cbn [categories_or_empty].
  split; by lookups.
Qed.

Lemma list_without_categories_column_witness :
  categories_column (mkBudgets {[ "b1" := delete "categories" stored_trip ]}
                       false) = false
  /\ exists budgets,
      run reference (getBudgets (signed_in "alice"))
        (mkBudgets {[ "b1" := delete "categories" stored_trip ]} false)
      = mkRun (mkBudgets {[ "b1" := delete "categories" stored_trip ]} false)
          [call (SelectMany list_columns "alice");
           call (SelectMany fallback_columns "alice")]
          (Returned budgets)
      /\ Forall (fun b => b !! "categories" = Some (VCategories [])
                          /\ b !! "total_allocated" = Some (VNum (Fin 0)))
           budgets.
Proof.
  split; [reflexivity|].
  exact (list_without_categories_column
           (mkBudgets {[ "b1" := delete "categories" stored_trip ]} false)
           "alice" eq_refl).
Defined.
